(** * Backup file service (vs/workbench/services/backup/node/backupFileService.ts)

    A shallow embedding of [BackupFilesModel] and [BackupFileService] and the
    properties of the backup persistence subsystem that follow from the code.

    Conventions of the embedding.
    - JavaScript strings are [string]; a version id is an integer ([Z]), an
      optional argument is an [option].
    - The cache of [BackupFilesModel] is an object created with
      [Object.create(null)] and used as a dictionary from the string form of a
      resource to its version id: a [gmap string Z].
    - A promise is a computation over the state of the service and of the
      outside world that settles with a value or with an error.  Calls are
      run one after the other, a call having settled before the next one is
      issued, except where a statement speaks of a call and of the promise
      it returns apart ([backupResource_call],
      [discardAllWorkspaceBackups_call]). *)

From Stdlib Require Import String Ascii List ZArith Lia.
From stdpp Require Import base option gmap strings list fin_maps.

Open Scope string_scope.
Set Warnings "-register-all".

(** ** Text: line breaks, splitting and joining *)

Module Text.

Definition CR : ascii := Ascii.ascii_of_nat 13.
Definition LF : ascii := Ascii.ascii_of_nat 10.

Definition isCR (c : ascii) : bool := Ascii.eqb c CR.
Definition isLF (c : ascii) : bool := Ascii.eqb c LF.

(** [s] holds the character [c] nowhere. *)
Fixpoint lacks (c : ascii) (s : string) : bool :=
  match s with
  | EmptyString => true
  | String d s' => negb (Ascii.eqb d c) && lacks c s'
  end.

(** [Array.prototype.join]: the elements separated by [sep]. *)
Fixpoint join (sep : string) (l : list string) : string :=
  match l with
  | [] => EmptyString
  | [x] => x
  | x :: rest => x +:+ sep +:+ join sep rest
  end.

(** [Array.prototype.slice(1)]: all elements but the first. *)
Definition slice1 {A : Type} (l : list A) : list A := skipn 1 l.

(** Puts the character [c] in front of the first line of [ls]. *)
Definition consFirst (c : ascii) (ls : list string) : list string :=
  match ls with
  | [] => [String c EmptyString]
  | l :: rest => String c l :: rest
  end.

(** Modelled from the spec: the raw-text-source structure of the editor
    (vs/editor/common/model/textSource, not part of these sources), which
    "given raw text and a declared line-ending convention, exposes an
    ordered sequence of lines" to be "rejoined with the normalized line
    ending".  The text is cut at every line break, a line break being
    CR LF, a lone CR or a lone LF; the lines hold no line break, and a text
    of n line breaks has n + 1 lines. *)
Fixpoint splitLines (s : string) : list string :=
  match s with
  | EmptyString => [EmptyString]
  | String c s' =>
      if isCR c then
        match s' with
        | String d s'' =>
            if isLF d then EmptyString :: splitLines s''
            else EmptyString :: splitLines s'
        | EmptyString => EmptyString :: splitLines s'
        end
      else if isLF c then EmptyString :: splitLines s'
      else consFirst c (splitLines s')
  end.

End Text.

(** ** End-of-line conventions and text sources
    (vs/editor/common/editorCommon and vs/editor/common/model/textSource) *)

Inductive DefaultEndOfLine : Type :=
| DefaultEndOfLine_LF
| DefaultEndOfLine_CRLF.

Definition eolString (e : DefaultEndOfLine) : string :=
  match e with
  | DefaultEndOfLine_LF => String Text.LF EmptyString
  | DefaultEndOfLine_CRLF => String Text.CR (String Text.LF EmptyString)
  end.

(** The two fields of a text source that [parseBackupContent] reads. *)
Record ITextSource : Type := mkTextSource {
  lines : list string;
  EOL : string
}.

Record IRawTextSource : Type := mkRawTextSource {
  raw_lines : list string
}.

Module RawTextSource.
(** Modelled from the spec: the raw text source of a text, its "ordered
    sequence of lines" ([RawTextSource.fromString] is not part of these
    sources). *)
Definition fromString (rawText : string) : IRawTextSource :=
  {| raw_lines := Text.splitLines rawText |}.
End RawTextSource.

Module TextSource.
(** Modelled from the spec: [TextSource.fromRawTextSource] is not part of
    these sources.  "Given raw text and a declared line-ending convention"
    it "exposes an ordered sequence of lines and a canonical end-of-line
    string for rejoining": the lines are those of the raw text source and
    the end of line is the one of the declared convention. *)
Definition fromRawTextSource (rawTextSource : IRawTextSource)
    (defaultEOL : DefaultEndOfLine) : ITextSource :=
  {| lines := raw_lines rawTextSource; EOL := eolString defaultEOL |}.
End TextSource.

(** ** Collaborators *)

(** vs/base/common/uri: what the service uses of a resource identifier. *)
Class UriApi : Type := {
  Uri : Type;
  scheme : Uri -> string;
  fsPath : Uri -> string;
  toString : Uri -> string;
  Uri_file : string -> Uri;
  Uri_parse : string -> Uri
}.

(** Node's [path.join] and [crypto.createHash('md5').update(_).digest('hex')]. *)
Class NodeApi : Type := {
  path_join : list string -> string;
  md5_hex : string -> string
}.

(** A promise settles with a value or with an error.  The error of
    [TPromise.join] is the array of the errors of the promises that failed,
    each at the index of its promise. *)
Inductive Error : Type :=
| IOError (message : string)
| JoinError (errors : list (option Error)).

Inductive IOResult (A : Type) : Type :=
| Ok (value : A)
| Err (error : Error).
Arguments Ok {A} value.
Arguments Err {A} error.

Definition isOk {A : Type} (r : IOResult A) : bool :=
  match r with Ok _ => true | Err _ => false end.

(** The file-system primitives the service consumes: [fileService.updateContent],
    [pfs.del], [pfs.readDirsInDir], [pfs.readdir] and [readToMatchingString]
    of vs/base/node/stream.  [FS] is the state of the disk; a write or a
    delete may change it also when it fails. *)
Class IFileSystem `{UriApi} (FS : Type) : Type := {
  fs_updateContent : Uri -> string -> FS -> IOResult unit * FS;
  fs_del : string -> FS -> IOResult unit * FS;
  fs_readDirsInDir : string -> FS -> IOResult (list string);
  fs_readdir : string -> FS -> IOResult (list string);
  fs_readToMatchingString : string -> string -> N -> N -> FS -> IOResult string
}.

(** A call made to the file system. *)
Inductive IOCall `{UriApi} : Type :=
| CallUpdateContent (resource : Uri) (value : string)
| CallDel (path : string)
| CallReadDirsInDir (path : string)
| CallReaddir (path : string)
| CallReadToMatchingString (file matching : string) (chunkBytes maximumBytesToRead : N).

(** ** BackupFilesModel: the Index *)

Record BackupFilesModel : Type := mkModel {
  cache : gmap string Z
}.

Module Model.
Section Methods.
Context `{UriApi}.

(** [new BackupFilesModel()] *)
Definition empty : BackupFilesModel := {| cache := ∅ |}.

(** [add(resource, versionId = 0)] *)
Definition add (m : BackupFilesModel) (resource : Uri) (versionId : option Z)
  : BackupFilesModel :=
  {| cache := <[toString resource := default 0%Z versionId]> (cache m) |}.

Definition count (m : BackupFilesModel) : nat := size (cache m).

Definition has (m : BackupFilesModel) (resource : Uri) (versionId : option Z)
  : bool :=
  match cache m !! toString resource with
  | None => false (* unknown resource *)
  | Some cachedVersionId =>
      match versionId with
      | Some v => Z.eqb v cachedVersionId
      | None => true
      end
  end.

(** [Object.keys(this.cache).map(k => Uri.parse(k))].  [Object.keys] gives
    the keys in the order of their insertion; the listing of the map gives
    the same keys in an order of its own, and no statement below depends
    on the order of the keys. *)
Definition keys (m : BackupFilesModel) : list string :=
  (map_to_list (cache m)).*1.

Definition get (m : BackupFilesModel) : list Uri :=
  map Uri_parse (keys m).

Definition remove (m : BackupFilesModel) (resource : Uri) : BackupFilesModel :=
  {| cache := delete (toString resource) (cache m) |}.

Definition clear (m : BackupFilesModel) : BackupFilesModel :=
  {| cache := ∅ |}.
End Methods.
End Model.

(** ** BackupFileService: the Coordinator *)

Record BackupFileService : Type := mkService {
  backupWorkspacePath : string;
  isShuttingDown : bool;
  model : BackupFilesModel (* the model that [ready] settles with *)
}.

Module Service.
Section Methods.
Context `{UriApi} `{NodeApi} {FS : Type} `{!IFileSystem FS}.

(** The outside world: the disk and the calls made to it so far. *)
Record World : Type := mkWorld {
  disk : FS;
  calls : list IOCall
}.

Record State : Type := mkState {
  self : BackupFileService;
  world : World
}.

(** *** Promises (vs/base/common/winjs.base) *)

Definition TPromise (A : Type) : Type := State -> IOResult A * State.

(** [TPromise.as(value)] *)
Definition TPromise_as {A : Type} (value : A) : TPromise A :=
  fun st => (Ok value, st).

(** [p.then(onSuccess)]: an error of [p] is passed on. *)
Definition then_ {A B : Type} (p : TPromise A) (onSuccess : A -> TPromise B)
  : TPromise B :=
  fun st =>
    match p st with
    | (Ok a, st') => onSuccess a st'
    | (Err e, st') => (Err e, st')
    end.

(** [p.then(onSuccess, onError)] *)
Definition then2 {A B : Type} (p : TPromise A) (onSuccess : A -> TPromise B)
    (onError : Error -> TPromise B) : TPromise B :=
  fun st =>
    match p st with
    | (Ok a, st') => onSuccess a st'
    | (Err e, st') => onError e st'
    end.

(** Lets every promise of the list settle, one after the other. *)
Fixpoint settleAll {A : Type} (ps : list (TPromise A)) (st : State)
  : list (IOResult A) * State :=
  match ps with
  | [] => ([], st)
  | p :: rest =>
      let '(r, st1) := p st in
      let '(rs, st2) := settleAll rest st1 in
      (r :: rs, st2)
  end.

Definition valueOf {A : Type} (r : IOResult A) : option A :=
  match r with Ok a => Some a | Err _ => None end.

Definition errorOf {A : Type} (r : IOResult A) : option Error :=
  match r with Ok _ => None | Err e => Some e end.

(** [TPromise.join] of the WinJS promise library (vs/base/common/winjs.base,
    not part of these sources): once every promise has settled, the join
    settles with the list of their values when none of them failed, and
    otherwise with an error, the array that holds the error of each
    failed promise at the index of that promise. *)
Definition TPromise_join {A : Type} (ps : list (TPromise A)) : TPromise (list A) :=
  fun st =>
    let '(rs, st') := settleAll ps st in
    if forallb isOk rs then (Ok (omap valueOf rs), st')
    else (Err (JoinError (map errorOf rs)), st').

(** [array.forEach(callback)] for a callback that changes the state. *)
Definition forEach {A : Type} (l : list A) (callback : A -> State -> State)
  : TPromise unit :=
  fun st => (Ok tt, fold_left (fun s a => callback a s) l st).

(** *** The calls to the file system *)

Definition logCall (c : IOCall) (d : FS) (st : State) : State :=
  {| self := self st;
     world := {| disk := d; calls := calls (world st) ++ [c] |} |}.

(** [fileService.updateContent(resource, value, BACKUP_FILE_UPDATE_OPTIONS)] *)
Definition updateContent (resource : Uri) (value : string) : TPromise unit :=
  fun st =>
    let '(r, d) := fs_updateContent resource value (disk (world st)) in
    (r, logCall (CallUpdateContent resource value) d st).

Definition pfs_del (path : string) : TPromise unit :=
  fun st =>
    let '(r, d) := fs_del path (disk (world st)) in
    (r, logCall (CallDel path) d st).

Definition pfs_readDirsInDir (path : string) : TPromise (list string) :=
  fun st =>
    (fs_readDirsInDir path (disk (world st)),
     logCall (CallReadDirsInDir path) (disk (world st)) st).

Definition pfs_readdir (path : string) : TPromise (list string) :=
  fun st =>
    (fs_readdir path (disk (world st)),
     logCall (CallReaddir path) (disk (world st)) st).

Definition readToMatchingString (file matching : string)
    (chunkBytes maximumBytesToRead : N) : TPromise string :=
  fun st =>
    (fs_readToMatchingString file matching chunkBytes maximumBytesToRead
       (disk (world st)),
     logCall (CallReadToMatchingString file matching chunkBytes maximumBytesToRead)
       (disk (world st)) st).

(** Modelled from the spec: the per-key operation queue ([ResourceQueue]
    of vs/base/common/async is not part of these sources).  Operations of
    one key run "strictly in submission order, one at a time" and
    "callers observe the failure via the returned result"; as every call
    has settled before the next one is issued, the queue of the key is
    idle, and the operation runs at once and its result is the result
    of the queued call. *)
Definition queueFor_queue {A : Type} (key : Uri) (operation : TPromise A)
  : TPromise A := operation.

(** *** The shared model object *)

Definition withModel (f : BackupFilesModel -> BackupFilesModel) (st : State)
  : State :=
  {| self := {| backupWorkspacePath := backupWorkspacePath (self st);
                isShuttingDown := isShuttingDown (self st);
                model := f (model (self st)) |};
     world := world st |}.

Definition model_add (resource : Uri) (versionId : option Z) : TPromise unit :=
  fun st => (Ok tt, withModel (fun m => Model.add m resource versionId) st).

Definition model_remove (resource : Uri) : TPromise unit :=
  fun st => (Ok tt, withModel (fun m => Model.remove m resource) st).

Definition model_clear : TPromise unit :=
  fun st => (Ok tt, withModel Model.clear st).

(** The model object itself, as a settled promise: [this] in [resolve],
    [this.ready] in the service. *)
Definition ready : TPromise BackupFilesModel :=
  fun st => (Ok (model (self st)), st).

(** [BackupFilesModel.resolve] *)
Definition resolve (backupRoot : string) : TPromise BackupFilesModel :=
  then2
    (then_ (pfs_readDirsInDir backupRoot) (fun backupSchemas =>
       (* For all supported schemas *)
       TPromise_join (map (fun backupSchema =>
         (* Read backup directory for backups *)
         let backupSchemaPath := path_join [backupRoot; backupSchema] in
         then_ (pfs_readdir backupSchemaPath) (fun backupHashes =>
           (* Remember known backups in our caches *)
           forEach backupHashes (fun backupHash =>
             let backupResource :=
               Uri_file (path_join [backupSchemaPath; backupHash]) in
             withModel (fun m => Model.add m backupResource None))))
         backupSchemas)))
    (fun _ => ready)
    (fun error => ready).

(** *** The service *)

Definition META_MARKER : string := String Text.LF EmptyString.

(** [new BackupFileService(backupWorkspacePath, fileService)], before
    [init] runs: a path that is undefined or empty is the empty string. *)
Definition create (path : string) : BackupFileService :=
  {| backupWorkspacePath := path;
     isShuttingDown := false;
     model := Model.empty |}.

(** [!!this.backupWorkspacePath]: hot exit requires a backup path. *)
Definition backupEnabled (s : BackupFileService) : bool :=
  negb (String.eqb (backupWorkspacePath s) EmptyString).

Definition init : TPromise BackupFilesModel :=
  fun st =>
    if negb (backupEnabled (self st)) then TPromise_as (model (self st)) st
    else resolve (backupWorkspacePath (self st)) st.

(** The constructor: the service once [this.ready] has settled. *)
Definition construct (path : string) (w : World) : IOResult BackupFilesModel * State :=
  init {| self := create path; world := w |}.

Definition hashPath (resource : Uri) : string :=
  md5_hex (fsPath resource).

(** [null] is [None]. *)
Definition getBackupResource (s : BackupFileService) (resource : Uri)
  : option Uri :=
  if negb (backupEnabled s) then None
  else Some (Uri_file (path_join [backupWorkspacePath s; scheme resource;
                                  hashPath resource])).

Definition hasBackups : TPromise bool :=
  then_ ready (fun model => TPromise_as (0 <? Model.count model)%nat).

Definition loadBackupResource (resource : Uri) : TPromise (option Uri) :=
  then_ ready (fun model => fun st =>
    match getBackupResource (self st) resource with
    | None => TPromise_as None st
    | Some backupResource =>
        (* Return directly if we have a known backup with that resource *)
        if Model.has model backupResource None
        then TPromise_as (Some backupResource) st
        else TPromise_as None st
    end).

(** The content as it is written: metadata added to the top of the file. *)
Definition frameContent (resource : Uri) (content : string) : string :=
  toString resource +:+ META_MARKER +:+ content.

Definition backupResource (resource : Uri) (content : string)
    (versionId : option Z) : TPromise unit :=
  fun st =>
    if isShuttingDown (self st) then TPromise_as tt st
    else
      then_ ready (fun model => fun st =>
        match getBackupResource (self st) resource with
        | None => TPromise_as tt st
        | Some backupResource =>
            if Model.has model backupResource versionId
            then TPromise_as tt st (* backup version id matches requested one *)
            else
              let content := frameContent resource content in
              queueFor_queue backupResource
                (then_ (updateContent backupResource content) (fun _ =>
                   model_add backupResource versionId)) st
        end) st.

Definition discardResourceBackup (resource : Uri) : TPromise unit :=
  then_ ready (fun model => fun st =>
    match getBackupResource (self st) resource with
    | None => TPromise_as tt st
    | Some backupResource =>
        queueFor_queue backupResource
          (then_ (pfs_del (fsPath backupResource)) (fun _ =>
             model_remove backupResource)) st
    end).

(** [this.isShuttingDown = true] *)
Definition setShuttingDown (st : State) : State :=
  {| self := {| backupWorkspacePath := backupWorkspacePath (self st);
                isShuttingDown := true;
                model := model (self st) |};
     world := world st |}.

(** What [discardAllWorkspaceBackups] does once the flag is set: the
    promise it returns. *)
Definition discardAllWorkspaceBackups_then : TPromise unit :=
  then_ ready (fun model => fun st =>
    if negb (backupEnabled (self st)) then TPromise_as tt st
    else then_ (pfs_del (backupWorkspacePath (self st))) (fun _ => model_clear) st).

Definition discardAllWorkspaceBackups : TPromise unit :=
  fun st => discardAllWorkspaceBackups_then (setShuttingDown st).

Definition getWorkspaceFileBackups : TPromise (list Uri) :=
  then_ ready (fun model =>
    let readPromises :=
      map (fun fileBackup =>
             then_ (readToMatchingString (fsPath fileBackup) META_MARKER 2000%N 10000%N)
                   (fun s => TPromise_as (Uri_parse s)))
          (Model.get model) in
    TPromise_join readPromises).

Definition parseBackupContent (rawTextSource : IRawTextSource) : string :=
  let textSource :=
    TextSource.fromRawTextSource rawTextSource DefaultEndOfLine_LF in
  (* The first line of a backup text file is the file name *)
  Text.join (EOL textSource) (Text.slice1 (lines textSource)).

(** *** Calls and the promises they return

    A call runs its synchronous part at once and returns a promise, whose
    chain runs later; other calls can be made in between. *)

(** [backupResource(resource, content, versionId)] called in the state
    [called]: the promise it returns.  The shutdown flag is read when the
    call is made; the chain behind [this.ready] runs when the promise
    settles, in the state of that moment. *)
Definition backupResource_call (resource : Uri) (content : string)
    (versionId : option Z) (called : State) : TPromise unit :=
  if isShuttingDown (self called) then TPromise_as tt
  else
    then_ ready (fun model => fun st =>
      match getBackupResource (self st) resource with
      | None => TPromise_as tt st
      | Some backupResource =>
          if Model.has model backupResource versionId
          then TPromise_as tt st
          else
            let content := frameContent resource content in
            queueFor_queue backupResource
              (then_ (updateContent backupResource content) (fun _ =>
                 model_add backupResource versionId)) st
      end).

(** [discardAllWorkspaceBackups()] called in the state [st]: the state in
    which the call returns, and the promise it returns, still to run. *)
Definition discardAllWorkspaceBackups_call (st : State) : State * TPromise unit :=
  (setShuttingDown st, discardAllWorkspaceBackups_then).

(** *** What the statements below speak of *)

(** The state after the calls [cs] were made and left the disk as it is. *)
Definition logCalls (cs : list IOCall) (st : State) : State :=
  {| self := self st;
     world := {| disk := disk (world st);
                 calls := (calls (world st) ++ cs)%list |} |}.

(** The read of the origin of one backup by [getWorkspaceFileBackups]. *)
Definition readCall (fileBackup : Uri) : IOCall :=
  CallReadToMatchingString (fsPath fileBackup) META_MARKER 2000%N 10000%N.

Definition readOrigin (d : FS) (fileBackup : Uri) : IOResult Uri :=
  match fs_readToMatchingString (fsPath fileBackup) META_MARKER 2000%N 10000%N d with
  | Ok s => Ok (Uri_parse s)
  | Err e => Err e
  end.

(** The backup files that the scan of [backupRoot] finds on the disk [d]
    in the directory of one schema, and in those of a list of schemas;
    a directory that cannot be listed contributes none. *)
Definition foundIn (backupRoot : string) (d : FS) (backupSchema : string)
  : list Uri :=
  let backupSchemaPath := path_join [backupRoot; backupSchema] in
  match fs_readdir backupSchemaPath d with
  | Ok backupHashes =>
      map (fun backupHash => Uri_file (path_join [backupSchemaPath; backupHash]))
          backupHashes
  | Err _ => []
  end.

Definition found (backupRoot : string) (d : FS) (backupSchemas : list string)
  : list Uri :=
  flat_map (foundIn backupRoot d) backupSchemas.

(** How the listing of the directory of one schema settles. *)
Definition scanResult (backupRoot : string) (d : FS) (backupSchema : string)
  : IOResult unit :=
  match fs_readdir (path_join [backupRoot; backupSchema]) d with
  | Ok _ => Ok tt
  | Err e => Err e
  end.

(** [add(resource)] for each resource of a list. *)
Definition addAll (m : BackupFilesModel) (resources : list Uri)
  : BackupFilesModel :=
  fold_left (fun m resource => Model.add m resource None) resources m.
End Methods.
End Service.

(** ** A small concrete host, for running the service on examples *)

Module Fixture.

(** A resource identifier of the form scheme://path. *)
Record FileUri : Type := mkUri {
  uri_scheme : string;
  uri_path : string
}.

Definition uriToString (u : FileUri) : string :=
  uri_scheme u +:+ "://" +:+ uri_path u.

Definition uriParse (s : string) : FileUri :=
  match String.index 0 "://" s with
  | Some i =>
      {| uri_scheme := String.substring 0 i s;
         uri_path := String.substring (i + 3) (String.length s - (i + 3)) s |}
  | None => {| uri_scheme := EmptyString; uri_path := s |}
  end.

#[export] Instance uriApi : UriApi := {|
  Uri := FileUri;
  scheme := uri_scheme;
  fsPath := uri_path;
  toString := uriToString;
  Uri_file := fun p => {| uri_scheme := "file"; uri_path := p |};
  Uri_parse := uriParse
|}.

Definition hexDigit (n : N) : ascii :=
  match n with
  | 0%N => "0" | 1%N => "1" | 2%N => "2" | 3%N => "3" | 4%N => "4"
  | 5%N => "5" | 6%N => "6" | 7%N => "7" | 8%N => "8" | 9%N => "9"
  | 10%N => "a" | 11%N => "b" | 12%N => "c" | 13%N => "d" | 14%N => "e"
  | _ => "f"
  end%char.

(** A 16-bit checksum in four hexadecimal digits; it stands for the md5
    digest in the examples. *)
Fixpoint checksum (acc : N) (s : string) : N :=
  match s with
  | EmptyString => acc
  | String c s' => checksum ((acc * 31 + N_of_ascii c) mod 65536)%N s'
  end.

Definition checksumHex (s : string) : string :=
  let h := checksum 7%N s in
  String (hexDigit (h / 4096 mod 16)%N)
    (String (hexDigit (h / 256 mod 16)%N)
       (String (hexDigit (h / 16 mod 16)%N)
          (String (hexDigit (h mod 16)%N) EmptyString))).

#[export] Instance nodeApi : NodeApi := {|
  path_join := Text.join "/";
  md5_hex := checksumHex
|}.

(** A disk in memory: the files by path, the entries of the directories
    that can be listed, and a switch that makes every write and delete
    fail. *)
Record MemDisk : Type := mkDisk {
  files : gmap string string;
  entries : gmap string (list string);
  readOnly : bool
}.

Definition under (dir path : string) : bool :=
  String.eqb dir path || String.prefix (dir +:+ "/") path.

Definition memUpdateContent (resource : FileUri) (value : string) (d : MemDisk)
  : IOResult unit * MemDisk :=
  if readOnly d then (Err (IOError "EROFS"), d)
  else (Ok tt, {| files := <[uri_path resource := value]> (files d);
                  entries := entries d;
                  readOnly := readOnly d |}).

Definition memDel (path : string) (d : MemDisk) : IOResult unit * MemDisk :=
  if readOnly d then (Err (IOError "EROFS"), d)
  else (Ok tt, {| files := filter (fun kv => under path kv.1 = false) (files d);
                  entries := filter (fun kv => under path kv.1 = false) (entries d);
                  readOnly := readOnly d |}).

Definition memReaddir (path : string) (d : MemDisk) : IOResult (list string) :=
  match entries d !! path with
  | Some names => Ok names
  | None => Err (IOError "ENOENT")
  end.

(** The text before the first occurrence of [matching] among the first
    [maximumBytesToRead] bytes of the file; an error when there is none. *)
Definition memReadToMatchingString (file matching : string)
    (chunkBytes maximumBytesToRead : N) (d : MemDisk) : IOResult string :=
  match files d !! file with
  | None => Err (IOError "ENOENT")
  | Some content =>
      match String.index 0 matching
              (String.substring 0 (N.to_nat maximumBytesToRead) content) with
      | Some i => Ok (String.substring 0 i content)
      | None => Err (IOError "no marker within the read bound")
      end
  end.

#[export] Instance memFileSystem : IFileSystem MemDisk := {|
  fs_updateContent := memUpdateContent;
  fs_del := memDel;
  fs_readDirsInDir := memReaddir;
  fs_readdir := memReaddir;
  fs_readToMatchingString := memReadToMatchingString
|}.

Definition emptyDisk : MemDisk :=
  {| files := ∅; entries := ∅; readOnly := false |}.

Definition newWorld (d : MemDisk) : Service.World :=
  {| Service.disk := d; Service.calls := [] |}.

Definition fileA : FileUri := {| uri_scheme := "file"; uri_path := "/home/a.txt" |}.
Definition untitled1 : FileUri := {| uri_scheme := "untitled"; uri_path := "Untitled-1" |}.


Definition nl : string := String Text.LF EmptyString.
Definition crlf : string := String Text.CR (String Text.LF EmptyString).

(** A content whose first line ends with CR LF and whose second with LF. *)
Definition mixedContent : string := "one" +:+ crlf +:+ "two" +:+ nl +:+ "three".

(** Where the backup of a resource lies under the root /bk. *)
Definition backupPath (resource : FileUri) : string :=
  Text.join "/" ["/bk"; uri_scheme resource; checksumHex (uri_path resource)].

(** A service on an empty disk, with the backup root /bk. *)
Definition freshState : Service.State :=
  {| Service.self := Service.create "/bk";
     Service.world := newWorld emptyDisk |}.

(** The same on a disk that refuses every write. *)
Definition readOnlyState : Service.State :=
  {| Service.self := Service.create "/bk";
     Service.world :=
       newWorld {| files := ∅; entries := ∅; readOnly := true |} |}.

(** A service without backup root. *)
Definition disabledState : Service.State :=
  {| Service.self := Service.create EmptyString;
     Service.world := newWorld emptyDisk |}.

(** A backup root of an earlier run: the backup of [fileA], well formed,
    and a truncated backup of [untitled1], which holds no marker. *)
Definition earlierDisk : MemDisk :=
  {| files :=
       <[backupPath fileA := uriToString fileA +:+ nl +:+ "hello"]>
         (<[backupPath untitled1 := "untitled://Unti"]> ∅);
     entries :=
       <["/bk" := ["file"; "untitled"]]>
         (<["/bk/file" := [checksumHex (uri_path fileA)]]>
            (<["/bk/untitled" := [checksumHex (uri_path untitled1)]]> ∅));
     readOnly := false |}.

(** The service about to scan that root. *)
Definition startingState : Service.State :=
  {| Service.self := Service.create "/bk";
     Service.world := newWorld earlierDisk |}.

(** The service restarted on that root, once its scan has settled. *)
Definition restartedState : Service.State :=
  snd (Service.construct "/bk" (newWorld earlierDisk)).

(** The backup of [fileA] is on the disk but the root cannot be listed:
    the service starts with an empty Index. *)
Definition unlistedDisk : MemDisk :=
  {| files := <[backupPath fileA := uriToString fileA +:+ nl +:+ "hello"]> ∅;
     entries := ∅;
     readOnly := false |}.

Definition unlistedState : Service.State :=
  snd (Service.construct "/bk" (newWorld unlistedDisk)).

(** The backup location of [fileA]. *)
Definition backupOfA : FileUri :=
  {| uri_scheme := "file"; uri_path := backupPath fileA |}.

(** The fresh service after a backup of [fileA] at version 1, and after the
    discard of that backup. *)
Definition backedUpState : Service.State :=
  snd (Service.backupResource fileA "hello" (Some 1%Z) freshState).

Definition discardedState : Service.State :=
  snd (Service.discardResourceBackup fileA backedUpState).
End Fixture.

(** * Properties *)

(** ** The metadata codec *)

Module TextFacts.
Import Text.

Lemma isCR_true (c : ascii) : isCR c = true -> c = CR.
Proof. unfold isCR. apply Ascii.eqb_eq. Qed.

Lemma splitLines_nonempty (s : string) : splitLines s <> [].
Proof.
  destruct s as [|c s]; simpl; [discriminate|].
  destruct (isCR c).
  - destruct s as [|d s]; [discriminate|]. destruct (isLF d); discriminate.
  - destruct (isLF c); [discriminate|].
    unfold consFirst. destruct (splitLines s); discriminate.
Qed.

Lemma join_cons (sep x : string) (l : list string) :
  l <> [] -> join sep (x :: l) = x +:+ sep +:+ join sep l.
Proof. destruct l; [congruence | reflexivity]. Qed.

Lemma join_consFirst (sep : string) (c : ascii) (l : list string) :
  l <> [] -> join sep (consFirst c l) = String c (join sep l).
Proof.
  destruct l as [|x [|y l]]; [congruence | reflexivity | reflexivity].
Qed.

Lemma splitLines_plain (c : ascii) (s : string) :
  Ascii.eqb c CR = false -> Ascii.eqb c LF = false ->
  splitLines (String c s) = consFirst c (splitLines s).
Proof. intros H1 H2. simpl. unfold isCR, isLF. now rewrite H1, H2. Qed.

Lemma splitLines_LF (s : string) :
  splitLines (String LF s) = EmptyString :: splitLines s.
Proof. reflexivity. Qed.

(** A text without CR is the LF-join of its lines. *)
Lemma join_splitLines (s : string) :
  lacks CR s = true -> join (String LF EmptyString) (splitLines s) = s.
Proof.
  induction s as [|c s IH]; [reflexivity|].
  cbn [lacks]. intros Hs. apply andb_true_iff in Hs as [Hc Hs].
  apply negb_true_iff in Hc.
  destruct (Ascii.eqb c LF) eqn:Hlf.
  - apply Ascii.eqb_eq in Hlf. subst c.
    rewrite splitLines_LF, join_cons by apply splitLines_nonempty.
    now rewrite IH.
  - rewrite splitLines_plain, join_consFirst
      by (assumption || apply splitLines_nonempty).
    now rewrite IH.
Qed.

(** A first line without line break, then LF: the lines of the rest follow. *)
Lemma splitLines_first_line (r s : string) :
  lacks CR r = true -> lacks LF r = true ->
  splitLines (r +:+ String LF s) = r :: splitLines s.
Proof.
  induction r as [|c r IH]; cbn [lacks]; intros Hcr Hlf.
  - reflexivity.
  - apply andb_true_iff in Hcr as [Hc1 Hcr].
    apply andb_true_iff in Hlf as [Hc2 Hlf].
    apply negb_true_iff in Hc1, Hc2.
    change (String c r +:+ String LF s) with (String c (r +:+ String LF s)).
    rewrite splitLines_plain by assumption.
    now rewrite IH.
Qed.
End TextFacts.

Section CodecProperties.
Context `{UriApi}.
Import Service.

(** C1 (amended): the backup is framed as the string form of the resource,
    one LF, then the content; and for a resource whose string form holds
    no line break and a content without carriage return (its line breaks
    are all LF), dropping the first line of the framed text and rejoining
    the others gives the content back. *)
Theorem frame_then_parse_LF_content (resource : Uri) (content : string) :
  Text.lacks Text.CR (toString resource) = true ->
  Text.lacks Text.LF (toString resource) = true ->
  Text.lacks Text.CR content = true ->
  frameContent resource content
    = toString resource +:+ String Text.LF EmptyString +:+ content
  /\ parseBackupContent (RawTextSource.fromString (frameContent resource content))
    = content.
Proof.
  intros Hcr Hlf Hc. split; [reflexivity|].
  unfold parseBackupContent, RawTextSource.fromString,
    TextSource.fromRawTextSource, frameContent, META_MARKER.
  cbn [lines EOL raw_lines eolString].
  change (String Text.LF EmptyString +:+ content) with (String Text.LF content).
  rewrite TextFacts.splitLines_first_line by assumption.
  now apply TextFacts.join_splitLines.
Qed.
End CodecProperties.

(** ** The coordinator: backups of single resources *)

Section ServiceProperties.
Context `{UriApi} `{NodeApi} {FS : Type} `{!IFileSystem FS}.
Import Service.

Implicit Types (st : @State _ FS) (resource loc : Uri) (content : string)
  (versionId : option Z) (e : Error).

(** [backupResource], path by path. *)
Lemma backupResource_unfold st resource content versionId :
  backupResource resource content versionId st =
    if isShuttingDown (self st) then (Ok tt, st)
    else match getBackupResource (self st) resource with
         | None => (Ok tt, st)
         | Some loc =>
             if Model.has (model (self st)) loc versionId then (Ok tt, st)
             else
               let framed := frameContent resource content in
               match fs_updateContent loc framed (disk (world st)) with
               | (Ok _, d) =>
                   (Ok tt, withModel (fun m => Model.add m loc versionId)
                             (logCall (CallUpdateContent loc framed) d st))
               | (Err e, d) =>
                   (Err e, logCall (CallUpdateContent loc framed) d st)
               end
         end.
Proof.
  unfold backupResource, then_, ready, TPromise_as, queueFor_queue,
    updateContent, model_add.
  destruct (isShuttingDown (self st)); [reflexivity|].
  destruct (getBackupResource (self st) resource) as [loc|]; [|reflexivity].
  destruct (Model.has (model (self st)) loc versionId); [reflexivity|].
  cbv zeta.
  destruct (fs_updateContent loc (frameContent resource content) (disk (world st)))
    as [[u|e] d]; reflexivity.
Qed.

Lemma discardResourceBackup_unfold st resource :
  discardResourceBackup resource st =
    match getBackupResource (self st) resource with
    | None => (Ok tt, st)
    | Some loc =>
        match fs_del (fsPath loc) (disk (world st)) with
        | (Ok _, d) =>
            (Ok tt, withModel (fun m => Model.remove m loc)
                      (logCall (CallDel (fsPath loc)) d st))
        | (Err e, d) => (Err e, logCall (CallDel (fsPath loc)) d st)
        end
    end.
Proof.
  unfold discardResourceBackup, then_, ready, TPromise_as, queueFor_queue,
    pfs_del, model_remove.
  destruct (getBackupResource (self st) resource) as [loc|]; [|reflexivity].
  destruct (fs_del (fsPath loc) (disk (world st))) as [[u|e] d]; reflexivity.
Qed.

Lemma has_add (m : BackupFilesModel) loc (v : Z) :
  Model.has (Model.add m loc (Some v)) loc (Some v) = true.
Proof.
  unfold Model.has, Model.add. cbn [cache default].
  rewrite lookup_insert_eq. apply Z.eqb_refl.
Qed.

Lemma has_known (m : BackupFilesModel) loc (v : Z) :
  cache m !! toString loc = Some v -> Model.has m loc None = true.
Proof. unfold Model.has. now intros ->. Qed.

Lemma remove_unknown (m : BackupFilesModel) loc :
  Model.has m loc None = false -> Model.remove m loc = m.
Proof.
  unfold Model.has, Model.remove. destruct m as [c]. cbn [cache].
  destruct (c !! toString loc) eqn:E; [discriminate|].
  intros _. f_equal. now apply delete_id.
Qed.

(** C2: when [backupResource] submits the write (the service is not
    shutting down, the resource has a backup location and the Index has no
    entry that matches the version) and the write fails, the call settles
    with the error of the write, the service (flag, root and Index) is as
    it was before the call, and a retry with the same version id is not
    skipped: the Index still has no matching entry and the retry submits
    the same write again. *)
Theorem backupResource_write_failure st resource content versionId loc e (d : FS) :
  isShuttingDown (self st) = false ->
  getBackupResource (self st) resource = Some loc ->
  Model.has (model (self st)) loc versionId = false ->
  fs_updateContent loc (frameContent resource content) (disk (world st))
    = (Err e, d) ->
  let st' := snd (backupResource resource content versionId st) in
  fst (backupResource resource content versionId st) = Err e
  /\ self st' = self st
  /\ disk (world st') = d
  /\ calls (world st')
     = (calls (world st)
          ++ [CallUpdateContent loc (frameContent resource content)])%list
  /\ Model.has (model (self st')) loc versionId = false
  /\ calls (world (snd (backupResource resource content versionId st')))
     = (calls (world st')
          ++ [CallUpdateContent loc (frameContent resource content)])%list.
Proof.
  intros Hflag Hloc Hhas Hw. cbv zeta.
  rewrite (backupResource_unfold st), Hflag, Hloc, Hhas. cbv zeta. rewrite Hw.
  cbn [fst snd logCall self world disk calls].
  do 5 (split; [reflexivity || assumption|]).
  rewrite backupResource_unfold. cbn [logCall self world disk calls].
  rewrite Hflag, Hloc, Hhas. cbv zeta.
  destruct (fs_updateContent loc (frameContent resource content) d) as [[u|e''] d'];
    reflexivity.
Qed.

(** C3: after a call of [backupResource] with version [v] that succeeded,
    a second call for the same resource and version changes nothing:
    no call to the file system is made and the Index is as it was; when
    backups are enabled and the service is not shutting down, the Index
    holds the entry of the backup location at exactly [v]. *)
Theorem backupResource_same_version_twice st st1 resource content (v : Z) :
  backupResource resource content (Some v) st = (Ok tt, st1) ->
  backupResource resource content (Some v) st1 = (Ok tt, st1)
  /\ (isShuttingDown (self st) = false ->
      forall loc, getBackupResource (self st) resource = Some loc ->
                  Model.has (model (self st1)) loc (Some v) = true).
Proof.
  rewrite backupResource_unfold.
  destruct (isShuttingDown (self st)) eqn:Hflag.
  { intros [= <-]. rewrite backupResource_unfold, Hflag. now split. }
  destruct (getBackupResource (self st) resource) as [loc|] eqn:Hloc.
  2:{ intros [= <-]. rewrite backupResource_unfold, Hflag, Hloc.
      split; [reflexivity | discriminate]. }
  destruct (Model.has (model (self st)) loc (Some v)) eqn:Hhas.
  { intros [= <-]. rewrite backupResource_unfold, Hflag, Hloc, Hhas.
    split; [reflexivity|]. now intros _ loc' [= <-]. }
  cbv zeta.
  destruct (fs_updateContent loc (frameContent resource content) (disk (world st)))
    as [[u|e'] d]; [|discriminate].
  intros [= <-]. rewrite backupResource_unfold.
  cbn [withModel logCall self world isShuttingDown backupWorkspacePath model].
  rewrite Hflag.
  unfold getBackupResource in Hloc |- *. unfold backupEnabled in Hloc |- *.
  cbn [backupWorkspacePath]. rewrite Hloc, has_add.
  split; [reflexivity|]. intros _ loc' [= <-]. apply has_add.
Qed.

(** C10: when the backup location of the resource is in the Index, at
    whatever version, [backupResource] without a version id changes
    nothing: the write is skipped and the Index keeps the stored version. *)
Theorem backupResource_no_version_skips st resource content loc (v : Z) :
  getBackupResource (self st) resource = Some loc ->
  cache (model (self st)) !! toString loc = Some v ->
  backupResource resource content None st = (Ok tt, st).
Proof.
  intros Hloc Hv. rewrite backupResource_unfold, Hloc.
  rewrite (has_known _ _ _ Hv). now destruct (isShuttingDown (self st)).
Qed.
End ServiceProperties.

(** ** The coordinator: locations, discards and shutdown *)

Section LifecycleProperties.
Context `{UriApi} `{NodeApi} {FS : Type} `{!IFileSystem FS}.
Import Service.

Implicit Types (st : @State _ FS) (s : BackupFileService)
  (resource loc : Uri) (content : string) (versionId : option Z).

Lemma getBackupResource_path s s' resource :
  backupWorkspacePath s' = backupWorkspacePath s ->
  getBackupResource s' resource = getBackupResource s resource.
Proof. unfold getBackupResource, backupEnabled. now intros ->. Qed.

(** C9: with a backup root configured, the backup location of a resource
    is the file resource of the root joined with the scheme of the
    resource and with the md5 digest of its file-system path; it depends
    on the root and on the resource only, so that two computations for the
    same resource, in whatever state of the Index and of the shutdown
    flag, give the same location. *)
Theorem getBackupResource_location s resource :
  backupEnabled s = true ->
  getBackupResource s resource
    = Some (Uri_file (path_join [backupWorkspacePath s; scheme resource;
                                 md5_hex (fsPath resource)]))
  /\ forall s', backupWorkspacePath s' = backupWorkspacePath s ->
                getBackupResource s' resource = getBackupResource s resource.
Proof.
  intros Hen. split.
  - unfold getBackupResource, hashPath. now rewrite Hen.
  - intros s'. apply getBackupResource_path.
Qed.

Lemma backupResource_shutting_down st resource content versionId :
  isShuttingDown (self st) = true ->
  backupResource resource content versionId st = (Ok tt, st).
Proof. intros Hflag. unfold backupResource. now rewrite Hflag. Qed.

Lemma discardAllWorkspaceBackups_flag st :
  isShuttingDown (self (snd (discardAllWorkspaceBackups st))) = true.
Proof.
  unfold discardAllWorkspaceBackups, discardAllWorkspaceBackups_then, then_,
    ready, TPromise_as, pfs_del, model_clear.
  cbn [setShuttingDown self world backupWorkspacePath].
  destruct (negb _); [reflexivity|].
  destruct (fs_del _ _) as [[u|e] d]; reflexivity.
Qed.

Lemma backupResource_runs_call st resource content versionId :
  backupResource resource content versionId st
  = backupResource_call resource content versionId st st.
Proof.
  unfold backupResource, backupResource_call.
  now destruct (isShuttingDown (self st)).
Qed.

Lemma backupResource_call_shutting_down (called settled : @State _ FS)
    resource content versionId :
  isShuttingDown (self called) = true ->
  backupResource_call resource content versionId called settled = (Ok tt, settled).
Proof. intros Hflag. unfold backupResource_call. now rewrite Hflag. Qed.

(** C4: when the call of [discardAllWorkspaceBackups] returns, the shutdown
    flag is set and nothing else has happened: no call to the file system
    has been made and the Index is as it was; the delete of the root is
    left to the promise the call returns, and the flag is still set when
    that promise has settled.  A [backupResource] called in a state with
    the flag set returns a promise that, in whatever state it settles,
    makes no call to the file system and leaves the Index as it is; so
    does a backup called right after [discardAllWorkspaceBackups] returned,
    whether it settles before the delete of the root or after it. *)
Theorem shutdown_suppresses_backups (st called settled : @State _ FS)
    resource content versionId :
  isShuttingDown (self called) = true ->
  let st1 := fst (discardAllWorkspaceBackups_call st) in
  let pending := snd (discardAllWorkspaceBackups_call st) in
  (isShuttingDown (self st1) = true
   /\ world st1 = world st
   /\ model (self st1) = model (self st)
   /\ discardAllWorkspaceBackups st = pending st1
   /\ isShuttingDown (self (snd (pending st1))) = true)
  /\ backupResource_call resource content versionId called settled = (Ok tt, settled)
  /\ backupResource resource content versionId called = (Ok tt, called)
  /\ backupResource_call resource content versionId st1 st1 = (Ok tt, st1)
  /\ backupResource_call resource content versionId st1 (snd (pending st1))
     = (Ok tt, snd (pending st1)).
Proof.
  intros Hflag. cbv zeta.
  assert (Hset : isShuttingDown
                   (self (fst (discardAllWorkspaceBackups_call st))) = true)
    by reflexivity.
  split; [|split; [|split; [|split]]].
  - split; [exact Hset|]. split; [reflexivity|]. split; [reflexivity|].
    split; [reflexivity|]. apply (discardAllWorkspaceBackups_flag st).
  - now apply backupResource_call_shutting_down.
  - now apply backupResource_shutting_down.
  - now apply backupResource_call_shutting_down.
  - now apply backupResource_call_shutting_down.
Qed.

(** C6 (amended): when backups are disabled [discardResourceBackup] does
    nothing; for a resource whose backup location is not in the Index it
    still submits the delete of that location, and whether the delete
    succeeds or fails the service (flag and Index) is as before. *)
Theorem discardResourceBackup_disabled_or_unknown st resource :
  (forall loc, getBackupResource (self st) resource = Some loc ->
               Model.has (model (self st)) loc None = false) ->
  self (snd (discardResourceBackup resource st)) = self st
  /\ match getBackupResource (self st) resource with
     | None => discardResourceBackup resource st = (Ok tt, st)
     | Some loc =>
         calls (world (snd (discardResourceBackup resource st)))
           = (calls (world st) ++ [CallDel (fsPath loc)])%list
         /\ exists r,
              fs_del (fsPath loc) (disk (world st))
                = (r, disk (world (snd (discardResourceBackup resource st))))
              /\ errorOf (fst (discardResourceBackup resource st)) = errorOf r
     end.
Proof.
  intros Hunknown. rewrite discardResourceBackup_unfold.
  destruct (getBackupResource (self st) resource) as [loc|] eqn:Hloc.
  2:{ now split. }
  specialize (Hunknown loc eq_refl).
  destruct (fs_del (fsPath loc) (disk (world st))) as [[u|e] d] eqn:Hdel.
  - cbn [snd fst withModel logCall self world calls disk].
    rewrite (remove_unknown _ _ Hunknown). split.
    + now destruct st as [[] ?].
    + split; [reflexivity|]. now exists (Ok u).
  - cbn [snd fst logCall self world calls disk].
    split; [reflexivity|]. split; [reflexivity|]. now exists (Err e).
Qed.
End LifecycleProperties.

(** ** Listing the backups and scanning the backup root *)

Section ScanProperties.
Context `{UriApi} `{NodeApi} {FS : Type} `{!IFileSystem FS}.
Import Service.

Implicit Types (st : @State _ FS) (m : BackupFilesModel)
  (resource loc : Uri) (d : FS).

Lemma state_eq st st' :
  self st = self st' -> disk (world st) = disk (world st') ->
  calls (world st) = calls (world st') -> st = st'.
Proof.
  destruct st as [s [d cs]], st' as [s' [d' cs']]. cbn. now intros -> -> ->.
Qed.

Lemma service_eq (s s' : BackupFileService) :
  backupWorkspacePath s = backupWorkspacePath s' ->
  isShuttingDown s = isShuttingDown s' -> model s = model s' -> s = s'.
Proof. destruct s, s'. cbn. now intros -> -> ->. Qed.

Ltac state_eq :=
  apply state_eq; [apply service_eq|..];
  cbn [self world disk calls logCalls logCall withModel
       backupWorkspacePath isShuttingDown model];
  rewrite ?app_nil_r, <- ?app_assoc; try reflexivity.

Lemma logCalls_nil st : logCalls [] st = st.
Proof. state_eq. Qed.

Lemma logCalls_logCall st c cs :
  logCalls cs (logCall c (disk (world st)) st) = logCalls (c :: cs) st.
Proof. state_eq. Qed.

(** The reads of [getWorkspaceFileBackups]: every entry is read, the disk
    stays as it is. *)
Lemma settleAll_reads (fileBackups : list Uri) st :
  settleAll
    (map (fun fileBackup =>
            then_ (readToMatchingString (fsPath fileBackup) META_MARKER 2000%N 10000%N)
                  (fun s => TPromise_as (Uri_parse s)))
         fileBackups) st
  = (map (readOrigin (disk (world st))) fileBackups,
     logCalls (map readCall fileBackups) st).
Proof.
  revert st. induction fileBackups as [|u us IH]; intros st.
  - cbn. now rewrite logCalls_nil.
  - cbn [map settleAll].
    unfold then_ at 1, readToMatchingString at 1, TPromise_as at 1.
    unfold readOrigin at 1.
    destruct (fs_readToMatchingString (fsPath u) META_MARKER 2000 10000
                (disk (world st))) as [s|e];
      rewrite IH; cbn [logCall world disk];
      now rewrite logCalls_logCall.
Qed.

Lemma getWorkspaceFileBackups_unfold st :
  let results :=
    map (readOrigin (disk (world st))) (Model.get (model (self st))) in
  getWorkspaceFileBackups st
  = (if forallb isOk results then Ok (omap valueOf results)
     else Err (JoinError (map errorOf results)),
     logCalls (map readCall (Model.get (model (self st)))) st).
Proof.
  cbv zeta. unfold getWorkspaceFileBackups, then_ at 1, ready, TPromise_join.
  rewrite settleAll_reads. now destruct (forallb _ _).
Qed.

(** C5 (amended): when the metadata read of some entry of the Index fails,
    [getWorkspaceFileBackups] fails as a whole: every entry has been read,
    the caller gets the error of the join, which holds the error of each
    failed entry at the place of that entry, and no origin of the entries
    that were read well is returned. *)
Theorem getWorkspaceFileBackups_fails_as_a_whole st fileBackup :
  In fileBackup (Model.get (model (self st))) ->
  isOk (readOrigin (disk (world st)) fileBackup) = false ->
  let results :=
    map (readOrigin (disk (world st))) (Model.get (model (self st))) in
  fst (getWorkspaceFileBackups st) = Err (JoinError (map errorOf results))
  /\ In (errorOf (readOrigin (disk (world st)) fileBackup)) (map errorOf results)
  /\ calls (world (snd (getWorkspaceFileBackups st)))
     = (calls (world st) ++ map readCall (Model.get (model (self st))))%list.
Proof.
  intros Hin Hbad. cbv zeta. rewrite getWorkspaceFileBackups_unfold.
  cbn [fst snd logCalls world calls].
  split; [|split; [|reflexivity]].
  - destruct (forallb isOk _) eqn:Hall; [|reflexivity].
    rewrite forallb_forall in Hall.
    specialize (Hall (readOrigin (disk (world st)) fileBackup)).
    rewrite Hall in Hbad; [discriminate|]. now apply in_map.
  - apply in_map. now apply in_map.
Qed.

(** *** The scan *)

Lemma addAll_app m (rs rs' : list Uri) :
  addAll m (rs ++ rs') = addAll (addAll m rs) rs'.
Proof. apply fold_left_app. Qed.

Lemma forEach_add {A : Type} (g : A -> Uri) (l : list A) st :
  fold_left (fun s a => withModel (fun m => Model.add m (g a) None) s) l st
  = withModel (fun m => addAll m (map g l)) st.
Proof.
  revert st. induction l as [|a l IH]; intros st.
  - state_eq.
  - cbn [fold_left]. rewrite IH. state_eq.
Qed.

(** The listings of the schema directories: each is read, the files of
    those that could be listed are added, the disk stays as it is. *)
Lemma settleAll_scan (backupRoot : string) (backupSchemas : list string) st :
  settleAll
    (map (fun backupSchema =>
            let backupSchemaPath := path_join [backupRoot; backupSchema] in
            then_ (pfs_readdir backupSchemaPath) (fun backupHashes =>
              forEach backupHashes (fun backupHash =>
                let backupResource :=
                  Uri_file (path_join [backupSchemaPath; backupHash]) in
                withModel (fun m => Model.add m backupResource None))))
         backupSchemas) st
  = (map (scanResult backupRoot (disk (world st))) backupSchemas,
     withModel (fun m => addAll m (found backupRoot (disk (world st)) backupSchemas))
       (logCalls (map (fun backupSchema =>
                         CallReaddir (path_join [backupRoot; backupSchema]))
                      backupSchemas) st)).
Proof.
  revert st. induction backupSchemas as [|schema rest IH]; intros st.
  - cbn. f_equal. state_eq.
  - cbn [map settleAll]. cbv zeta.
    unfold then_ at 1, pfs_readdir at 1, forEach at 1.
    unfold found. cbn [flat_map]. fold (found backupRoot (disk (world st)) rest).
    unfold scanResult at 1, foundIn at 1. cbv zeta.
    destruct (fs_readdir (path_join [backupRoot; schema]) (disk (world st)))
      as [hashes|e].
    + rewrite forEach_add, IH.
      cbn [withModel logCall world disk]. f_equal.
      state_eq. now rewrite addAll_app.
    + rewrite IH. cbn [logCall world disk]. f_equal. state_eq.
Qed.

(** [resolve], outcome by outcome of the listing of the root. *)
Lemma resolve_unfold (backupRoot : string) st :
  resolve backupRoot st =
    match fs_readDirsInDir backupRoot (disk (world st)) with
    | Ok backupSchemas =>
        let m' := addAll (model (self st))
                    (found backupRoot (disk (world st)) backupSchemas) in
        (Ok m',
         withModel (fun _ => m')
           (logCalls (CallReadDirsInDir backupRoot
                        :: map (fun backupSchema =>
                                  CallReaddir (path_join [backupRoot; backupSchema]))
                               backupSchemas) st))
    | Err _ =>
        (Ok (model (self st)), logCalls [CallReadDirsInDir backupRoot] st)
    end.
Proof.
  unfold resolve, then2, then_ at 1, pfs_readDirsInDir at 1, TPromise_join, ready.
  destruct (fs_readDirsInDir backupRoot (disk (world st))) as [schemas|e].
  - rewrite settleAll_scan. cbn [logCall world disk]. cbv zeta.
    destruct (forallb isOk _); cbn [withModel self model]; f_equal; state_eq.
  - f_equal.
Qed.

Lemma addAll_lookup m (rs : list Uri) (k : string) :
  cache (addAll m rs) !! k
  = if decide (k ∈ map toString rs) then Some 0%Z else cache m !! k.
Proof.
  revert m. induction rs as [|r rs IH]; intros m.
  - cbn. destruct (decide _) as [Hin|]; [|reflexivity]. inversion Hin.
  - change (addAll m (r :: rs)) with (addAll (Model.add m r None) rs).
    rewrite IH. cbn [map Model.add cache default].
    destruct (decide (k ∈ map toString rs)) as [Hin|Hout].
    + rewrite decide_True; [reflexivity | now right].
    + destruct (decide (toString r = k)) as [<-|Hne].
      * rewrite lookup_insert_eq, decide_True; [reflexivity | now left].
      * rewrite lookup_insert_ne by assumption.
        rewrite decide_False; [reflexivity|].
        intros [?|?]%elem_of_cons; congruence.
Qed.

Lemma found_file (backupRoot : string) d (backupSchemas backupHashes : list string)
    (backupSchema backupHash : string) :
  In backupSchema backupSchemas ->
  fs_readdir (path_join [backupRoot; backupSchema]) d = Ok backupHashes ->
  In backupHash backupHashes ->
  In (Uri_file (path_join [path_join [backupRoot; backupSchema]; backupHash]))
     (found backupRoot d backupSchemas).
Proof.
  intros Hs Hread Hh. unfold found. apply in_flat_map.
  exists backupSchema. split; [assumption|].
  unfold foundIn. cbv zeta. rewrite Hread.
  now apply (in_map (fun h => Uri_file (path_join [_; h]))).
Qed.

Lemma count_known m (k : string) (v : Z) :
  cache m !! k = Some v -> (0 <? Model.count m)%nat = true.
Proof.
  intros Hk. apply Nat.ltb_lt. unfold Model.count.
  destruct (size (cache m)) eqn:Hsize; [|lia].
  apply map_size_empty_iff in Hsize. rewrite Hsize in Hk.
  now rewrite lookup_empty in Hk.
Qed.

(** C7: when the scan lists the root and the directory of a schema, every
    file found there is in the Index with version id 0 once [resolve] has
    settled: [has] of its location holds without a version and with
    version 0, with version 0 only, and [hasBackups] settles with true. *)
Theorem resolve_adds_found_files st (backupRoot backupSchema backupHash : string)
    (backupSchemas backupHashes : list string) :
  fs_readDirsInDir backupRoot (disk (world st)) = Ok backupSchemas ->
  In backupSchema backupSchemas ->
  fs_readdir (path_join [backupRoot; backupSchema]) (disk (world st))
    = Ok backupHashes ->
  In backupHash backupHashes ->
  let st' := snd (resolve backupRoot st) in
  let location :=
    Uri_file (path_join [path_join [backupRoot; backupSchema]; backupHash]) in
  cache (model (self st')) !! toString location = Some 0%Z
  /\ Model.has (model (self st')) location None = true
  /\ (forall v : Z, Model.has (model (self st')) location (Some v) = true <-> v = 0%Z)
  /\ fst (hasBackups st') = Ok true.
Proof.
  intros Hroot Hs Hread Hh. cbv zeta.
  rewrite resolve_unfold, Hroot. cbv zeta.
  cbn [snd withModel self model].
  pose proof (found_file backupRoot _ _ _ _ _ Hs Hread Hh) as Hfound.
  set (location := Uri_file _) in *.
  assert (Hk : cache (addAll (model (self st))
                        (found backupRoot (disk (world st)) backupSchemas))
               !! toString location = Some 0%Z).
  { rewrite addAll_lookup, decide_True; [reflexivity|].
    apply list_elem_of_In. now apply in_map. }
  split; [exact Hk|]. split; [now apply (has_known _ _ 0%Z)|]. split.
  - intros v. unfold Model.has. rewrite Hk. rewrite Z.eqb_eq. tauto.
  - unfold hasBackups, then_, ready, TPromise_as. cbn [fst self model].
    f_equal. now apply (count_known _ _ _ Hk).
Qed.

(** C8: [resolve] always settles with the model, never with an error.  When
    the listing of the root fails the Index is as it was, the empty Index
    at initialization; when the root is listed, the Index gains, at version
    0, exactly the files of the schema directories that could be listed,
    so that a failed listing of one directory leaves a partial Index.  The
    constructor of the service therefore never fails either. *)
Theorem resolve_never_fails st (backupRoot : string) :
  let st' := snd (resolve backupRoot st) in
  fst (resolve backupRoot st) = Ok (model (self st'))
  /\ match fs_readDirsInDir backupRoot (disk (world st)) with
     | Err _ => model (self st') = model (self st)
     | Ok backupSchemas =>
         forall k : string,
           cache (model (self st')) !! k
           = if decide (k ∈ map toString
                              (found backupRoot (disk (world st)) backupSchemas))
             then Some 0%Z
             else cache (model (self st)) !! k
     end
  /\ forall w : World,
       fst (construct backupRoot w) = Ok (model (self (snd (construct backupRoot w))))
       /\ match fs_readDirsInDir backupRoot (disk w) with
          | Err _ => cache (model (self (snd (construct backupRoot w)))) = ∅
          | Ok _ => True
          end.
Proof.
  cbv zeta. split; [|split].
  - rewrite resolve_unfold.
    now destruct (fs_readDirsInDir backupRoot (disk (world st))).
  - rewrite resolve_unfold.
    destruct (fs_readDirsInDir backupRoot (disk (world st))) as [schemas|e];
      [|reflexivity].
    intros k. cbv zeta. cbn [snd withModel self model]. apply addAll_lookup.
  - intros w. unfold construct, init, backupEnabled, create.
    cbn [self backupWorkspacePath model].
    destruct (negb (negb (String.eqb backupRoot EmptyString))).
    + unfold TPromise_as. cbn [fst snd self model]. split; [reflexivity|].
      now destruct (fs_readDirsInDir backupRoot (disk w)).
    + rewrite resolve_unfold. cbn [world self model].
      destruct (fs_readDirsInDir backupRoot (disk w)); now split.
Qed.
End ScanProperties.

(** * The properties at work on the concrete host *)

Module Examples.
Import Fixture Service.

(** ** The codec *)

Lemma frame_then_parse_LF_content_witness :
  Text.lacks Text.CR (toString fileA) = true
  /\ Text.lacks Text.LF (toString fileA) = true
  /\ Text.lacks Text.CR ("hello" +:+ nl +:+ "world") = true
  /\ (frameContent fileA ("hello" +:+ nl +:+ "world")
       = toString fileA +:+ String Text.LF EmptyString +:+ ("hello" +:+ nl +:+ "world")
     /\ parseBackupContent
          (RawTextSource.fromString (frameContent fileA ("hello" +:+ nl +:+ "world")))
        = "hello" +:+ nl +:+ "world").
Proof.
  do 3 (split; [vm_compute; reflexivity|]).
  apply (@frame_then_parse_LF_content uriApi fileA ("hello" +:+ nl +:+ "world"));
    vm_compute; reflexivity.
Defined.

(** C1, as stated, fails: a content that mixes CR LF and LF line breaks does
    not come back, its line breaks are normalized; rejoining the lines with
    CR LF would not give it back either. *)
Lemma frame_then_parse_mixed_line_breaks :
  let framed := frameContent fileA mixedContent in
  parseBackupContent (RawTextSource.fromString framed)
    = "one" +:+ nl +:+ "two" +:+ nl +:+ "three"
  /\ parseBackupContent (RawTextSource.fromString framed) <> mixedContent
  /\ Text.join crlf (Text.slice1 (Text.splitLines framed)) <> mixedContent.
Proof.
  cbv zeta. split; [vm_compute; reflexivity|].
  split; vm_compute; discriminate.
Qed.

Example splitLines_mixedContent :
  Text.splitLines mixedContent = ["one"; "two"; "three"].
Proof. reflexivity. Qed.

Example splitLines_trailing_line_break :
  Text.splitLines ("one" +:+ nl) = ["one"; EmptyString].
Proof. reflexivity. Qed.

(** ** Backups of single resources *)

(** A backup that succeeded is found again, and its decoded text is the
    content. *)
Example backup_then_load :
  let st1 := snd (backupResource fileA "hello" (Some 1%Z) freshState) in
  fst (loadBackupResource fileA st1) = Ok (Some (Uri_file (backupPath fileA)))
  /\ (exists framed,
        files (disk (world st1)) !! backupPath fileA = Some framed
        /\ parseBackupContent (RawTextSource.fromString framed) = "hello")
  /\ fst (loadBackupResource untitled1 st1) = Ok None.
Proof.
  cbv zeta. split; [vm_compute; reflexivity|]. split; [|vm_compute; reflexivity].
  exists (uriToString fileA +:+ nl +:+ "hello"). split; vm_compute; reflexivity.
Qed.

Lemma backupResource_write_failure_witness :
  let st' := snd (backupResource fileA "hello" (Some 1%Z) readOnlyState) in
  isShuttingDown (self readOnlyState) = false
  /\ getBackupResource (self readOnlyState) fileA = Some backupOfA
  /\ Model.has (model (self readOnlyState)) backupOfA (Some 1%Z) = false
  /\ fs_updateContent backupOfA (frameContent fileA "hello")
       (disk (world readOnlyState))
     = (Err (IOError "EROFS"), disk (world readOnlyState))
  /\ fst (backupResource fileA "hello" (Some 1%Z) readOnlyState)
     = Err (IOError "EROFS")
  /\ self st' = self readOnlyState.
Proof.
  cbv zeta.
  assert (Hflag : isShuttingDown (self readOnlyState) = false)
    by (vm_compute; reflexivity).
  assert (Hloc : getBackupResource (self readOnlyState) fileA = Some backupOfA)
    by (vm_compute; reflexivity).
  assert (Hhas : Model.has (model (self readOnlyState)) backupOfA (Some 1%Z) = false)
    by (vm_compute; reflexivity).
  assert (Hw : fs_updateContent backupOfA (frameContent fileA "hello")
                 (disk (world readOnlyState))
               = (Err (IOError "EROFS"), disk (world readOnlyState)))
    by (vm_compute; reflexivity).
  do 4 (split; [assumption|]).
  pose proof (@backupResource_write_failure uriApi nodeApi MemDisk memFileSystem
                readOnlyState fileA "hello" (Some 1%Z) _ _ _ Hflag Hloc Hhas Hw)
    as (Herr & Hself & _).
  now split.
Defined.

Lemma backupResource_same_version_twice_witness :
  let st1 := snd (backupResource fileA "hello" (Some 1%Z) freshState) in
  backupResource fileA "hello" (Some 1%Z) freshState = (Ok tt, st1)
  /\ backupResource fileA "hello" (Some 1%Z) st1 = (Ok tt, st1)
  /\ (isShuttingDown (self freshState) = false ->
      forall loc, getBackupResource (self freshState) fileA = Some loc ->
                  Model.has (model (self st1)) loc (Some 1%Z) = true).
Proof.
  cbv zeta.
  assert (Hfirst : backupResource fileA "hello" (Some 1%Z) freshState
                   = (Ok tt, snd (backupResource fileA "hello" (Some 1%Z) freshState)))
    by (vm_compute; reflexivity).
  split; [exact Hfirst|].
  exact (@backupResource_same_version_twice uriApi nodeApi MemDisk memFileSystem
           _ _ _ _ _ Hfirst).
Defined.

Lemma backupResource_no_version_skips_witness :
  getBackupResource (self restartedState) fileA = Some (Uri_file (backupPath fileA))
  /\ cache (model (self restartedState)) !! toString (Uri_file (backupPath fileA))
     = Some 0%Z
  /\ backupResource fileA "changed" None restartedState = (Ok tt, restartedState).
Proof.
  assert (Hloc : getBackupResource (self restartedState) fileA
                 = Some (Uri_file (backupPath fileA)))
    by (vm_compute; reflexivity).
  assert (Hknown : cache (model (self restartedState))
                     !! toString (Uri_file (backupPath fileA)) = Some 0%Z)
    by (vm_compute; reflexivity).
  split; [exact Hloc|]. split; [exact Hknown|].
  exact (@backupResource_no_version_skips uriApi nodeApi MemDisk memFileSystem
           restartedState fileA "changed" _ _ Hloc Hknown).
Defined.

(** ** Locations, discards and shutdown *)

Lemma getBackupResource_location_witness :
  backupEnabled (create "/bk") = true
  /\ getBackupResource (create "/bk") fileA
     = Some (Uri_file (path_join ["/bk"; "file"; md5_hex "/home/a.txt"])).
Proof.
  assert (Henabled : backupEnabled (create "/bk") = true)
    by (vm_compute; reflexivity).
  split; [exact Henabled|].
  exact (proj1 (@getBackupResource_location uriApi nodeApi (create "/bk") fileA
                  Henabled)).
Defined.

Lemma shutdown_suppresses_backups_witness :
  let st1 := fst (discardAllWorkspaceBackups_call restartedState) in
  let pending := snd (discardAllWorkspaceBackups_call restartedState) in
  isShuttingDown (self st1) = true
  /\ backupResource_call fileA "hello" (Some 1%Z) st1 (snd (pending st1))
     = (Ok tt, snd (pending st1))
  /\ backupResource fileA "hello" (Some 1%Z) st1 = (Ok tt, st1)
  /\ fst (hasBackups (snd (pending st1))) = Ok false.
Proof.
  cbv zeta.
  assert (Hflag : isShuttingDown
                    (self (fst (discardAllWorkspaceBackups_call restartedState)))
                  = true) by (vm_compute; reflexivity).
  split; [exact Hflag|].
  pose proof (@shutdown_suppresses_backups uriApi nodeApi MemDisk memFileSystem
                restartedState
                (fst (discardAllWorkspaceBackups_call restartedState))
                (snd (snd (discardAllWorkspaceBackups_call restartedState)
                        (fst (discardAllWorkspaceBackups_call restartedState))))
                fileA "hello" (Some 1%Z) Hflag)
    as (_ & Hlate & Hnow & _).
  split; [exact Hlate|]. split; [exact Hnow|]. vm_compute; reflexivity.
Defined.

Lemma discardResourceBackup_disabled_or_unknown_witness :
  (forall loc, getBackupResource (self unlistedState) fileA = Some loc ->
               Model.has (model (self unlistedState)) loc None = false)
  /\ self (snd (discardResourceBackup fileA unlistedState)) = self unlistedState.
Proof.
  assert (Hunknown :
            forall loc, getBackupResource (self unlistedState) fileA = Some loc ->
                        Model.has (model (self unlistedState)) loc None = false).
  { intros loc Hloc. vm_compute in Hloc. injection Hloc as <-.
    vm_compute; reflexivity. }
  split; [exact Hunknown|].
  exact (proj1 (@discardResourceBackup_disabled_or_unknown uriApi nodeApi MemDisk
                  memFileSystem unlistedState fileA Hunknown)).
Defined.

(** C6, as stated, fails: the backup location of [fileA] is not in the
    Index, and yet [discardResourceBackup] submits the delete, which removes
    the backup file from the disk. *)
Lemma discardResourceBackup_unknown_location_deletes :
  let loc := Uri_file (backupPath fileA) in
  let st' := snd (discardResourceBackup fileA unlistedState) in
  backupEnabled (self unlistedState) = true
  /\ getBackupResource (self unlistedState) fileA = Some loc
  /\ Model.has (model (self unlistedState)) loc None = false
  /\ calls (world st') = (calls (world unlistedState) ++ [CallDel (backupPath fileA)])%list
  /\ files (disk (world unlistedState)) !! backupPath fileA
     = Some (uriToString fileA +:+ nl +:+ "hello")
  /\ files (disk (world st')) !! backupPath fileA = None.
Proof. cbv zeta. repeat split; vm_compute; reflexivity. Qed.

(** ** Listing and scanning *)

Lemma getWorkspaceFileBackups_fails_as_a_whole_witness :
  let truncated := Uri_file (backupPath untitled1) in
  In truncated (Model.get (model (self restartedState)))
  /\ isOk (readOrigin (disk (world restartedState)) truncated) = false
  /\ fst (getWorkspaceFileBackups restartedState)
     = Err (JoinError
              (map errorOf
                 (map (readOrigin (disk (world restartedState)))
                    (Model.get (model (self restartedState)))))).
Proof.
  cbv zeta.
  assert (Hin : In (Uri_file (backupPath untitled1))
                  (Model.get (model (self restartedState))))
    by (vm_compute; auto).
  assert (Hbad : isOk (readOrigin (disk (world restartedState))
                         (Uri_file (backupPath untitled1))) = false)
    by (vm_compute; reflexivity).
  split; [exact Hin|]. split; [exact Hbad|].
  exact (proj1 (@getWorkspaceFileBackups_fails_as_a_whole uriApi MemDisk
                  memFileSystem restartedState _ Hin Hbad)).
Defined.

(** C5, as stated, fails: with the well-formed backup of [fileA] and a
    truncated backup in the Index, the listing settles with the error of
    the join, which holds the error of the truncated backup; it settles
    with no list of origins, so that the origin [fileA], although read, is
    not returned. *)
Lemma getWorkspaceFileBackups_one_truncated_backup :
  let good := Uri_file (backupPath fileA) in
  let truncated := Uri_file (backupPath untitled1) in
  In good (Model.get (model (self restartedState)))
  /\ In truncated (Model.get (model (self restartedState)))
  /\ readOrigin (disk (world restartedState)) good = Ok fileA
  /\ readOrigin (disk (world restartedState)) truncated
     = Err (IOError "no marker within the read bound")
  /\ (exists errors,
        fst (getWorkspaceFileBackups restartedState) = Err (JoinError errors)
        /\ In (Some (IOError "no marker within the read bound")) errors)
  /\ forall origins, fst (getWorkspaceFileBackups restartedState) <> Ok origins.
Proof.
  cbv zeta.
  assert (Hfails : exists errors,
             fst (getWorkspaceFileBackups restartedState) = Err (JoinError errors)
             /\ In (Some (IOError "no marker within the read bound")) errors).
  { eexists. split; [vm_compute; reflexivity|]. simpl; auto. }
  split; [vm_compute; auto|]. split; [vm_compute; auto|].
  split; [vm_compute; reflexivity|]. split; [vm_compute; reflexivity|].
  split; [exact Hfails|].
  intros origins Hok. destruct Hfails as (errors & Herr & _). congruence.
Qed.

Lemma resolve_adds_found_files_witness :
  let st' := snd (resolve "/bk" startingState) in
  let location := Uri_file (backupPath fileA) in
  fs_readDirsInDir "/bk" (disk (world startingState)) = Ok ["file"; "untitled"]
  /\ In "file" ["file"; "untitled"]
  /\ fs_readdir (path_join ["/bk"; "file"]) (disk (world startingState))
     = Ok [md5_hex "/home/a.txt"]
  /\ In (md5_hex "/home/a.txt") [md5_hex "/home/a.txt"]
  /\ cache (model (self st')) !! toString location = Some 0%Z
  /\ Model.has (model (self st')) location None = true
  /\ fst (hasBackups st') = Ok true.
Proof.
  cbv zeta.
  assert (Hroot : fs_readDirsInDir "/bk" (disk (world startingState))
                  = Ok ["file"; "untitled"]) by (vm_compute; reflexivity).
  assert (Hschema : In "file" ["file"; "untitled"]) by (simpl; auto).
  assert (Hdir : fs_readdir (path_join ["/bk"; "file"]) (disk (world startingState))
                 = Ok [md5_hex "/home/a.txt"]) by (vm_compute; reflexivity).
  assert (Hhash : In (md5_hex "/home/a.txt") [md5_hex "/home/a.txt"])
    by (simpl; auto).
  pose proof (@resolve_adds_found_files uriApi nodeApi MemDisk memFileSystem
                startingState "/bk" "file" (md5_hex "/home/a.txt")
                _ _ Hroot Hschema Hdir Hhash) as (Hzero & Hhas & _ & Hsome).
  repeat split; assumption.
Defined.
End Examples.

(** * Further properties of the Index *)

Section ModelLaws.
Context `{UriApi}.

Implicit Types (m : BackupFilesModel) (r : Uri) (v : option Z).

(** X1: after [add(r, v)] a query for a resource with the same string form
    holds without version and with the version stored, which is 0 when [v]
    was left out, and with no other; a query for a resource with another
    string form is answered as before. *)
Theorem has_after_add m r (r' : Uri) v (v' : option Z) :
  Model.has (Model.add m r v) r' v'
  = if decide (toString r = toString r')
    then match v' with
         | Some x => Z.eqb x (default 0%Z v)
         | None => true
         end
    else Model.has m r' v'.
Proof.
  unfold Model.has, Model.add. cbn [cache].
  rewrite lookup_insert. now destruct (decide (toString r = toString r')).
Qed.

(** X2: after [remove(r)] no query for a resource with the same string form
    holds and the others are answered as before; after [clear()] no query
    holds, the count is 0 and [get()] is empty. *)
Theorem has_after_remove_and_clear m r (r' : Uri) (v' : option Z) :
  Model.has (Model.remove m r) r' v'
  = (if decide (toString r = toString r') then false else Model.has m r' v')
  /\ Model.has (Model.clear m) r' v' = false
  /\ Model.count (Model.clear m) = 0%nat
  /\ Model.get (Model.clear m) = [].
Proof.
  split; [|split; [|split]].
  - unfold Model.has, Model.remove. cbn [cache].
    rewrite lookup_delete. now destruct (decide (toString r = toString r')).
  - unfold Model.has, Model.clear. cbn [cache]. now rewrite lookup_empty.
  - unfold Model.count, Model.clear. cbn [cache]. apply map_size_empty.
  - unfold Model.get, Model.keys, Model.clear. cbn [cache].
    now rewrite map_to_list_empty.
Qed.

(** X3: the Index keeps one version per location: a query that holds with a
    version holds without, and two versions with which it holds are equal. *)
Theorem has_one_version m r (x y : Z) :
  Model.has m r (Some x) = true ->
  Model.has m r (Some y) = true ->
  x = y /\ Model.has m r None = true /\ cache m !! toString r = Some x.
Proof.
  unfold Model.has. destruct (cache m !! toString r) as [c|]; [|discriminate].
  intros Hx%Z.eqb_eq Hy%Z.eqb_eq. subst. now repeat split.
Qed.

(** X4: [add] of a location that is known overwrites its entry and keeps the
    count, [add] of an unknown one increases it by one; [remove] of a known
    location decreases it by one, [remove] of an unknown one keeps it. *)
Theorem count_after_add_and_remove m r v :
  Model.count (Model.add m r v)
  = (if Model.has m r None then Model.count m else S (Model.count m))
  /\ Model.count (Model.remove m r)
     = (if Model.has m r None then Nat.pred (Model.count m) else Model.count m).
Proof.
  unfold Model.count, Model.add, Model.remove, Model.has. cbn [cache].
  rewrite map_size_insert, map_size_delete.
  now destruct (cache m !! toString r).
Qed.

(** X5: [get()] lists each location of the Index once: it has [count()]
    elements, the keys it parses are pairwise different, and a key is
    among them exactly when the cache holds an entry for it. *)
Theorem get_lists_the_cache m :
  length (Model.get m) = Model.count m
  /\ NoDup (Model.keys m)
  /\ forall k : string, In k (Model.keys m) <-> is_Some (cache m !! k).
Proof.
  split; [|split].
  - unfold Model.get, Model.keys, Model.count.
    now rewrite length_map, length_fmap, length_map_to_list.
  - unfold Model.keys. apply NoDup_fst_map_to_list.
  - intros k. unfold Model.keys. rewrite <- list_elem_of_In, list_elem_of_fmap.
    split.
    + intros [[k' x] [-> Hin%elem_of_map_to_list]]. now exists x.
    + intros [x Hx]. exists (k, x). split; [reflexivity|].
      now apply elem_of_map_to_list.
Qed.
End ModelLaws.

(** * Further properties of the coordinator *)

Section CoordinatorLaws.
Context `{UriApi} `{NodeApi} {FS : Type} `{!IFileSystem FS}.
Import Service.

Implicit Types (st : @State _ FS) (resource loc : Uri) (content : string)
  (versionId : option Z) (e : Error).

Lemma loadBackupResource_unfold st resource :
  loadBackupResource resource st =
    (Ok match getBackupResource (self st) resource with
        | Some loc => if Model.has (model (self st)) loc None then Some loc else None
        | None => None
        end, st).
Proof.
  unfold loadBackupResource, then_, ready, TPromise_as.
  destruct (getBackupResource (self st) resource) as [loc|]; [|reflexivity].
  now destruct (Model.has (model (self st)) loc None).
Qed.

Lemma discardAllWorkspaceBackups_unfold st :
  discardAllWorkspaceBackups st =
    if negb (backupEnabled (self st)) then (Ok tt, setShuttingDown st)
    else
      let root := backupWorkspacePath (self st) in
      match fs_del root (disk (world st)) with
      | (Ok _, d) =>
          (Ok tt, withModel Model.clear (logCall (CallDel root) d (setShuttingDown st)))
      | (Err e, d) => (Err e, logCall (CallDel root) d (setShuttingDown st))
      end.
Proof.
  unfold discardAllWorkspaceBackups, discardAllWorkspaceBackups_then, then_, ready,
    TPromise_as, pfs_del, model_clear, backupEnabled.
  cbn [setShuttingDown self world backupWorkspacePath].
  destruct (negb (negb _)); [reflexivity|]. cbv zeta.
  destruct (fs_del _ _) as [[u|e] d]; reflexivity.
Qed.

Lemma has_versioned_known (m : BackupFilesModel) loc versionId :
  Model.has m loc versionId = true -> Model.has m loc None = true.
Proof. unfold Model.has. now destruct (cache m !! toString loc). Qed.

Lemma has_unknown_versioned (m : BackupFilesModel) loc versionId :
  Model.has m loc None = false -> Model.has m loc versionId = false.
Proof. unfold Model.has. now destruct (cache m !! toString loc). Qed.

Lemma has_add_same (m : BackupFilesModel) loc versionId :
  Model.has (Model.add m loc versionId) loc versionId = true
  /\ Model.has (Model.add m loc versionId) loc None = true.
Proof.
  unfold Model.has, Model.add. cbn [cache]. rewrite lookup_insert_eq.
  split; [|reflexivity]. destruct versionId; [apply Z.eqb_refl | reflexivity].
Qed.

(** X6: a write of [backupResource] that succeeds puts the location in the
    Index at the version of the call, at 0 when the call gave none, makes
    exactly one call to the file system, the write of the framed content to
    the backup location, and leaves the rest of the service as it was. *)
Theorem backupResource_write_success st st' resource content versionId loc :
  isShuttingDown (self st) = false ->
  getBackupResource (self st) resource = Some loc ->
  Model.has (model (self st)) loc versionId = false ->
  backupResource resource content versionId st = (Ok tt, st') ->
  cache (model (self st'))
    = <[toString loc := default 0%Z versionId]> (cache (model (self st)))
  /\ isShuttingDown (self st') = false
  /\ backupWorkspacePath (self st') = backupWorkspacePath (self st)
  /\ fs_updateContent loc (frameContent resource content) (disk (world st))
     = (Ok tt, disk (world st'))
  /\ calls (world st')
     = (calls (world st)
          ++ [CallUpdateContent loc (frameContent resource content)])%list.
Proof.
  intros Hflag Hloc Hhas. rewrite backupResource_unfold, Hflag, Hloc, Hhas.
  cbv zeta.
  destruct (fs_updateContent loc (frameContent resource content) (disk (world st)))
    as [[[]|e'] d]; [|discriminate].
  intros [= <-].
  cbn [withModel logCall self world disk calls model isShuttingDown
       backupWorkspacePath Model.add cache].
  now repeat split.
Qed.

(** X7: after a call of [backupResource] that succeeded, on a service that
    is enabled and not shutting down, [loadBackupResource] gives the backup
    location of the resource, without touching state or disk, and the Index
    matches the version of the call. *)
Theorem backupResource_ok_then_load st st' resource content versionId loc :
  isShuttingDown (self st) = false ->
  getBackupResource (self st) resource = Some loc ->
  backupResource resource content versionId st = (Ok tt, st') ->
  loadBackupResource resource st' = (Ok (Some loc), st')
  /\ Model.has (model (self st')) loc versionId = true.
Proof.
  intros Hflag Hloc. rewrite backupResource_unfold, Hflag, Hloc.
  rewrite loadBackupResource_unfold.
  destruct (Model.has (model (self st)) loc versionId) eqn:Hhas.
  - intros [= <-]. rewrite Hloc, (has_versioned_known _ _ _ Hhas). now split.
  - cbv zeta.
    destruct (fs_updateContent loc (frameContent resource content) (disk (world st)))
      as [[[]|e'] d]; [|discriminate].
    intros [= <-].
    cbn [withModel logCall self world model].
    unfold getBackupResource, backupEnabled in Hloc |- *.
    cbn [backupWorkspacePath]. rewrite Hloc.
    destruct (has_add_same (model (self st)) loc versionId) as [Hv Hnone].
    rewrite Hnone. now split.
Qed.


(** X9: whatever its outcome, [backupResource] makes at most one call to the
    file system, and that call is the write of the framed content to the
    backup location of the resource: it never deletes and never writes
    elsewhere. *)
Theorem backupResource_calls st resource content versionId :
  exists cs : list IOCall,
    calls (world (snd (backupResource resource content versionId st)))
      = (calls (world st) ++ cs)%list
    /\ (cs = []
        \/ exists loc,
             getBackupResource (self st) resource = Some loc
             /\ cs = [CallUpdateContent loc (frameContent resource content)]).
Proof.
  rewrite backupResource_unfold.
  destruct (isShuttingDown (self st)).
  { exists []. rewrite app_nil_r. now split; [|left]. }
  destruct (getBackupResource (self st) resource) as [loc|].
  2:{ exists []. rewrite app_nil_r. now split; [|left]. }
  destruct (Model.has (model (self st)) loc versionId).
  { exists []. rewrite app_nil_r. now split; [|left]. }
  exists [CallUpdateContent loc (frameContent resource content)]. cbv zeta.
  destruct (fs_updateContent loc (frameContent resource content) (disk (world st)))
    as [[u|e'] d];
    (split; [reflexivity | right; now exists loc]).
Qed.

(** X10: a backup or a discard of one resource leaves the entry of every
    other backup location of the Index as it was. *)
Theorem other_entries_untouched st resource content versionId (k : string) :
  (forall loc, getBackupResource (self st) resource = Some loc -> k <> toString loc) ->
  cache (model (self (snd (backupResource resource content versionId st)))) !! k
    = cache (model (self st)) !! k
  /\ cache (model (self (snd (discardResourceBackup resource st)))) !! k
     = cache (model (self st)) !! k.
Proof.
  intros Hother. rewrite backupResource_unfold, discardResourceBackup_unfold.
  destruct (getBackupResource (self st) resource) as [loc|].
  2:{ now destruct (isShuttingDown (self st)). }
  specialize (Hother loc eq_refl). split.
  - destruct (isShuttingDown (self st)); [reflexivity|].
    destruct (Model.has (model (self st)) loc versionId); [reflexivity|].
    cbv zeta.
    destruct (fs_updateContent loc (frameContent resource content) (disk (world st)))
      as [[u|e'] d];
      cbn [snd withModel logCall self model Model.add cache]; [|reflexivity].
    now rewrite lookup_insert_ne by congruence.
  - destruct (fs_del (fsPath loc) (disk (world st))) as [[u|e'] d];
      cbn [snd withModel logCall self model Model.remove cache]; [|reflexivity].
    now rewrite lookup_delete_ne by congruence.
Qed.

(** X11: a delete of [discardResourceBackup] that succeeds removes the
    location from the Index, so that [loadBackupResource] finds no backup of
    the resource any more; the one call made is the delete of the file of
    the backup location. *)
Theorem discardResourceBackup_success st st' resource loc :
  getBackupResource (self st) resource = Some loc ->
  discardResourceBackup resource st = (Ok tt, st') ->
  cache (model (self st')) = delete (toString loc) (cache (model (self st)))
  /\ Model.has (model (self st')) loc None = false
  /\ loadBackupResource resource st' = (Ok None, st')
  /\ calls (world st') = (calls (world st) ++ [CallDel (fsPath loc)])%list.
Proof.
  intros Hloc. rewrite discardResourceBackup_unfold, Hloc.
  destruct (fs_del (fsPath loc) (disk (world st))) as [[[]|e'] d]; [|discriminate].
  intros [= <-]. rewrite loadBackupResource_unfold.
  cbn [withModel logCall self world calls model].
  assert (Hgone : Model.has (Model.remove (model (self st)) loc) loc None = false).
  { unfold Model.has, Model.remove. cbn [cache]. now rewrite lookup_delete_eq. }
  unfold getBackupResource, backupEnabled in Hloc |- *.
  cbn [backupWorkspacePath]. rewrite Hloc, Hgone. now repeat split.
Qed.

(** X12: when [discardResourceBackup] submits the delete and the delete
    fails, the call settles with the error of the delete and the service
    (flag, root and Index) is as it was before the call; the one call made
    is the delete of the file of the backup location. *)
Theorem discardResourceBackup_failure st resource loc e (d : FS) :
  getBackupResource (self st) resource = Some loc ->
  fs_del (fsPath loc) (disk (world st)) = (Err e, d) ->
  let st' := snd (discardResourceBackup resource st) in
  fst (discardResourceBackup resource st) = Err e
  /\ self st' = self st
  /\ disk (world st') = d
  /\ calls (world st') = (calls (world st) ++ [CallDel (fsPath loc)])%list.
Proof.
  intros Hloc Hdel. cbv zeta.
  rewrite discardResourceBackup_unfold, Hloc, Hdel. now repeat split.
Qed.

(** X13: a backup of a resource that had none, followed by its discard, both
    succeeding, gives back the service as it was, Index included; the calls
    made are the write and then the delete of the backup location. *)
Theorem backup_then_discard st st1 st2 resource content versionId loc :
  isShuttingDown (self st) = false ->
  getBackupResource (self st) resource = Some loc ->
  Model.has (model (self st)) loc None = false ->
  backupResource resource content versionId st = (Ok tt, st1) ->
  discardResourceBackup resource st1 = (Ok tt, st2) ->
  self st2 = self st
  /\ calls (world st2)
     = (calls (world st)
          ++ [CallUpdateContent loc (frameContent resource content);
              CallDel (fsPath loc)])%list.
Proof.
  intros Hflag Hloc Hnew.
  rewrite backupResource_unfold, Hflag, Hloc, (has_unknown_versioned _ _ _ Hnew).
  cbv zeta.
  destruct (fs_updateContent loc (frameContent resource content) (disk (world st)))
    as [[[]|e'] d]; [|discriminate].
  intros [= <-]. rewrite discardResourceBackup_unfold.
  cbn [withModel logCall self world disk calls model].
  unfold getBackupResource, backupEnabled in Hloc |- *.
  cbn [backupWorkspacePath]. rewrite Hloc.
  destruct (fs_del (fsPath loc) d) as [[[]|e'] d']; [|discriminate].
  intros [= <-].
  cbn [withModel logCall self world calls model isShuttingDown backupWorkspacePath].
  split.
  - apply service_eq; cbn [backupWorkspacePath isShuttingDown model]; try reflexivity.
    unfold Model.remove, Model.add. cbn [cache].
    rewrite delete_insert_eq. unfold Model.has in Hnew.
    destruct (model (self st)) as [c]. cbn [cache] in *. f_equal.
    apply delete_id. now destruct (c !! toString loc).
  - now rewrite <- app_assoc.
Qed.

(** X14: when backups are enabled and the delete of the backup root
    succeeds, [discardAllWorkspaceBackups] leaves an empty Index:
    [hasBackups] settles with false and no resource has a backup to load;
    the shutdown flag is set and the one call made is the delete of the
    root. *)
Theorem discardAllWorkspaceBackups_success st st' :
  backupEnabled (self st) = true ->
  discardAllWorkspaceBackups st = (Ok tt, st') ->
  cache (model (self st')) = ∅
  /\ hasBackups st' = (Ok false, st')
  /\ (forall resource, loadBackupResource resource st' = (Ok None, st'))
  /\ isShuttingDown (self st') = true
  /\ calls (world st')
     = (calls (world st) ++ [CallDel (backupWorkspacePath (self st))])%list.
Proof.
  intros Hen. rewrite discardAllWorkspaceBackups_unfold, Hen. cbv zeta.
  cbn [negb].
  destruct (fs_del (backupWorkspacePath (self st)) (disk (world st)))
    as [[[]|e'] d]; [|discriminate].
  intros [= <-].
  cbn [withModel logCall setShuttingDown self world calls model isShuttingDown].
  split; [reflexivity|]. split; [|split; [|now split]].
  - unfold hasBackups, then_, ready, TPromise_as, Model.count, Model.clear.
    cbn [withModel self model cache]. now rewrite map_size_empty.
  - intros resource. rewrite loadBackupResource_unfold.
    cbn [withModel self model].
    destruct (getBackupResource _ resource) as [loc|]; [|reflexivity].
    unfold Model.has, Model.clear. cbn [cache]. now rewrite lookup_empty.
Qed.

(** X15: when backups are enabled and the delete of the backup root fails,
    [discardAllWorkspaceBackups] settles with the error of the delete and
    leaves the Index as it was; the shutdown flag is set all the same, so
    that every later [backupResource] is suppressed. *)
Theorem discardAllWorkspaceBackups_failure st e (d : FS) :
  backupEnabled (self st) = true ->
  fs_del (backupWorkspacePath (self st)) (disk (world st)) = (Err e, d) ->
  let st' := snd (discardAllWorkspaceBackups st) in
  fst (discardAllWorkspaceBackups st) = Err e
  /\ model (self st') = model (self st)
  /\ isShuttingDown (self st') = true
  /\ disk (world st') = d
  /\ calls (world st')
     = (calls (world st) ++ [CallDel (backupWorkspacePath (self st))])%list
  /\ forall resource content versionId,
       backupResource resource content versionId st' = (Ok tt, st').
Proof.
  intros Hen Hdel. cbv zeta.
  rewrite discardAllWorkspaceBackups_unfold, Hen. cbn [negb]. cbv zeta.
  rewrite Hdel.
  cbn [fst snd logCall setShuttingDown self world disk calls model isShuttingDown].
  do 5 (split; [reflexivity|]).
  intros resource content versionId. now apply backupResource_shutting_down.
Qed.

(** X16: a service without backup root does nothing: its initialization
    settles with the model without a call to the file system, a backup and
    a discard change neither state nor disk, no backup is found to load,
    and [discardAllWorkspaceBackups] only sets the shutdown flag. *)
Theorem disabled_service_is_inert st resource content versionId :
  backupEnabled (self st) = false ->
  init st = (Ok (model (self st)), st)
  /\ backupResource resource content versionId st = (Ok tt, st)
  /\ discardResourceBackup resource st = (Ok tt, st)
  /\ loadBackupResource resource st = (Ok None, st)
  /\ discardAllWorkspaceBackups st = (Ok tt, setShuttingDown st).
Proof.
  intros Hoff.
  assert (Hloc : getBackupResource (self st) resource = None)
    by (unfold getBackupResource; now rewrite Hoff).
  split; [|split; [|split; [|split]]].
  - unfold init. now rewrite Hoff.
  - rewrite backupResource_unfold, Hloc. now destruct (isShuttingDown (self st)).
  - now rewrite discardResourceBackup_unfold, Hloc.
  - now rewrite loadBackupResource_unfold, Hloc.
  - now rewrite discardAllWorkspaceBackups_unfold, Hoff.
Qed.

(** X17: [loadBackupResource] changes neither state nor disk, and gives a
    location exactly when backups are enabled and the Index holds the
    backup location of the resource, at whatever version. *)
Theorem loadBackupResource_known_iff st resource loc :
  snd (loadBackupResource resource st) = st
  /\ (fst (loadBackupResource resource st) = Ok (Some loc)
      <-> getBackupResource (self st) resource = Some loc
          /\ is_Some (cache (model (self st)) !! toString loc)).
Proof.
  rewrite loadBackupResource_unfold. cbn [fst snd]. split; [reflexivity|].
  destruct (getBackupResource (self st) resource) as [loc'|].
  2:{ split; [discriminate | intros [? _]; discriminate]. }
  unfold Model.has. split.
  - destruct (cache (model (self st)) !! toString loc') as [x|] eqn:Hx;
      [|discriminate].
    intros [= ->]. split; [reflexivity|]. now exists x.
  - intros [[= ->] [x Hx]]. now rewrite Hx.
Qed.
End CoordinatorLaws.

(** * Further properties of the listing and of the scan *)

Section ScanLaws.
Context `{UriApi} `{NodeApi} {FS : Type} `{!IFileSystem FS}.
Import Service.

Implicit Types (st : @State _ FS) (resource loc : Uri) (content : string)
  (versionId : option Z).

Lemma values_of_all_ok {A : Type} (rs : list (IOResult A)) :
  forallb isOk rs = true -> map Ok (omap valueOf rs) = rs.
Proof.
  induction rs as [|[a|e] rs IH]; cbn; [reflexivity | | discriminate].
  intros Hall. now rewrite IH.
Qed.

(** X18: when the metadata of every entry of the Index can be read,
    [getWorkspaceFileBackups] settles with the parsed origin of each entry,
    one per entry and in the order of [get()]; it reads every entry once
    and changes neither the service nor the disk.  On an empty Index it
    settles with the empty list without a call. *)
Theorem getWorkspaceFileBackups_all_read st :
  (forall fileBackup, In fileBackup (Model.get (model (self st))) ->
                      isOk (readOrigin (disk (world st)) fileBackup) = true) ->
  exists origins : list Uri,
    getWorkspaceFileBackups st
      = (Ok origins, logCalls (map readCall (Model.get (model (self st)))) st)
    /\ map Ok origins
       = map (readOrigin (disk (world st))) (Model.get (model (self st)))
    /\ length origins = Model.count (model (self st)).
Proof.
  intros Hall. rewrite getWorkspaceFileBackups_unfold. cbv zeta.
  set (results := map (readOrigin (disk (world st))) (Model.get (model (self st)))).
  assert (Hok : forallb isOk results = true).
  { apply forallb_forall. intros r [u [<- Hin]]%in_map_iff. now apply Hall. }
  rewrite Hok. exists (omap valueOf results).
  pose proof (values_of_all_ok results Hok) as Hvalues.
  split; [reflexivity|]. split; [exact Hvalues|].
  rewrite <- (length_map Ok), Hvalues. subst results.
  unfold Model.get, Model.keys, Model.count.
  now rewrite length_map, length_map, length_fmap, length_map_to_list.
Qed.

(** X19: no operation but [discardAllWorkspaceBackups] changes the shutdown
    flag, which that one sets, and none changes the backup root: a service
    that is shutting down stays so, whatever is called next. *)
Theorem flag_and_root_are_kept st resource content versionId (backupRoot : string) :
  let kept (st' : @State _ FS) :=
    isShuttingDown (self st') = isShuttingDown (self st)
    /\ backupWorkspacePath (self st') = backupWorkspacePath (self st) in
  kept (snd (backupResource resource content versionId st))
  /\ kept (snd (discardResourceBackup resource st))
  /\ kept (snd (loadBackupResource resource st))
  /\ kept (snd (hasBackups st))
  /\ kept (snd (getWorkspaceFileBackups st))
  /\ kept (snd (resolve backupRoot st))
  /\ isShuttingDown (self (snd (discardAllWorkspaceBackups st))) = true
  /\ backupWorkspacePath (self (snd (discardAllWorkspaceBackups st)))
     = backupWorkspacePath (self st).
Proof.
  cbv zeta. split; [|split; [|split; [|split; [|split; [|split; [|split]]]]]].
  - rewrite backupResource_unfold.
    destruct (isShuttingDown (self st)) eqn:Hflag; [now split|].
    destruct (getBackupResource (self st) resource) as [loc|]; [|now split].
    destruct (Model.has (model (self st)) loc versionId); [now split|].
    cbv zeta.
    destruct (fs_updateContent _ _ _) as [[u|e] d]; now split.
  - rewrite discardResourceBackup_unfold.
    destruct (getBackupResource (self st) resource) as [loc|]; [|now split].
    destruct (fs_del _ _) as [[u|e] d]; now split.
  - rewrite loadBackupResource_unfold. now split.
  - now split.
  - rewrite getWorkspaceFileBackups_unfold. now split.
  - rewrite resolve_unfold. destruct (fs_readDirsInDir _ _); now split.
  - apply discardAllWorkspaceBackups_flag.
  - rewrite discardAllWorkspaceBackups_unfold.
    destruct (negb _); [reflexivity|]. cbv zeta.
    destruct (fs_del _ _) as [[u|e] d]; reflexivity.
Qed.

(** X20: [resolve] only reads: the disk is as it was, and the calls it makes
    are the listing of the root followed, when the root could be listed, by
    the listing of the directory of each schema, in the order of the
    listing of the root. *)
Theorem resolve_reads_only st (backupRoot : string) :
  let st' := snd (resolve backupRoot st) in
  disk (world st') = disk (world st)
  /\ calls (world st')
     = (calls (world st)
          ++ CallReadDirsInDir backupRoot
             :: map (fun backupSchema =>
                       CallReaddir (path_join [backupRoot; backupSchema]))
                    match fs_readDirsInDir backupRoot (disk (world st)) with
                    | Ok backupSchemas => backupSchemas
                    | Err _ => []
                    end)%list.
Proof.
  cbv zeta. rewrite resolve_unfold.
  destruct (fs_readDirsInDir backupRoot (disk (world st))); now split.
Qed.

(** X21: after a scan that found the backup file of a resource, a backup of
    that resource with version id 0, or with none, is skipped, since the
    scan recorded the file at version 0; a backup with any other version id
    submits the write. *)
Theorem backup_after_scan st resource content loc (backupRoot : string)
    (backupSchemas : list string) :
  isShuttingDown (self st) = false ->
  getBackupResource (self st) resource = Some loc ->
  fs_readDirsInDir backupRoot (disk (world st)) = Ok backupSchemas ->
  In (toString loc)
     (map toString (found backupRoot (disk (world st)) backupSchemas)) ->
  let st1 := snd (resolve backupRoot st) in
  backupResource resource content (Some 0%Z) st1 = (Ok tt, st1)
  /\ backupResource resource content None st1 = (Ok tt, st1)
  /\ forall v : Z,
       v <> 0%Z ->
       calls (world (snd (backupResource resource content (Some v) st1)))
       = (calls (world st1)
            ++ [CallUpdateContent loc (frameContent resource content)])%list.
Proof.
  intros Hflag Hloc Hroot Hfound. cbv zeta.
  rewrite resolve_unfold, Hroot. cbv zeta. cbn [snd].
  set (st1 := withModel _ _).
  assert (Hflag1 : isShuttingDown (self st1) = false) by exact Hflag.
  assert (Hloc1 : getBackupResource (self st1) resource = Some loc) by exact Hloc.
  assert (Hzero : cache (model (self st1)) !! toString loc = Some 0%Z).
  { subst st1. cbn [withModel self model].
    rewrite addAll_lookup, decide_True; [reflexivity|].
    now apply list_elem_of_In. }
  split; [|split].
  - rewrite backupResource_unfold, Hflag1, Hloc1.
    unfold Model.has. now rewrite Hzero.
  - rewrite backupResource_unfold, Hflag1, Hloc1.
    unfold Model.has. now rewrite Hzero.
  - intros v Hv. rewrite backupResource_unfold, Hflag1, Hloc1.
    unfold Model.has. rewrite Hzero.
    destruct (Z.eqb_spec v 0) as [|_]; [contradiction|]. cbv zeta.
    destruct (fs_updateContent _ _ _) as [[u|e] d]; reflexivity.
Qed.
End ScanLaws.

(** * The further properties at work on the concrete host *)

Module MoreExamples.
Import Fixture Service.

Lemma has_one_version_witness :
  Model.has (model (self backedUpState)) backupOfA (Some 1%Z) = true
  /\ (1%Z = 1%Z
      /\ Model.has (model (self backedUpState)) backupOfA None = true
      /\ cache (model (self backedUpState)) !! toString backupOfA = Some 1%Z).
Proof.
  assert (Hone : Model.has (model (self backedUpState)) backupOfA (Some 1%Z) = true)
    by (vm_compute; reflexivity).
  split; [exact Hone|].
  exact (@has_one_version uriApi _ backupOfA 1%Z 1%Z Hone Hone).
Defined.

Lemma backupResource_write_success_witness :
  isShuttingDown (self freshState) = false
  /\ getBackupResource (self freshState) fileA = Some backupOfA
  /\ Model.has (model (self freshState)) backupOfA (Some 1%Z) = false
  /\ backupResource fileA "hello" (Some 1%Z) freshState = (Ok tt, backedUpState)
  /\ cache (model (self backedUpState))
     = <[toString backupOfA := 1%Z]> (cache (model (self freshState))).
Proof.
  assert (Hflag : isShuttingDown (self freshState) = false)
    by (vm_compute; reflexivity).
  assert (Hloc : getBackupResource (self freshState) fileA = Some backupOfA)
    by (vm_compute; reflexivity).
  assert (Hhas : Model.has (model (self freshState)) backupOfA (Some 1%Z) = false)
    by (vm_compute; reflexivity).
  assert (Hok : backupResource fileA "hello" (Some 1%Z) freshState
                = (Ok tt, backedUpState)) by (vm_compute; reflexivity).
  do 4 (split; [assumption|]).
  exact (proj1 (@backupResource_write_success uriApi nodeApi MemDisk memFileSystem
                  _ _ _ _ _ _ Hflag Hloc Hhas Hok)).
Defined.

Lemma backupResource_ok_then_load_witness :
  isShuttingDown (self freshState) = false
  /\ getBackupResource (self freshState) fileA = Some backupOfA
  /\ backupResource fileA "hello" (Some 1%Z) freshState = (Ok tt, backedUpState)
  /\ loadBackupResource fileA backedUpState = (Ok (Some backupOfA), backedUpState)
  /\ Model.has (model (self backedUpState)) backupOfA (Some 1%Z) = true.
Proof.
  assert (Hflag : isShuttingDown (self freshState) = false)
    by (vm_compute; reflexivity).
  assert (Hloc : getBackupResource (self freshState) fileA = Some backupOfA)
    by (vm_compute; reflexivity).
  assert (Hok : backupResource fileA "hello" (Some 1%Z) freshState
                = (Ok tt, backedUpState)) by (vm_compute; reflexivity).
  do 3 (split; [assumption|]).
  exact (@backupResource_ok_then_load uriApi nodeApi MemDisk memFileSystem
           _ _ _ _ _ _ Hflag Hloc Hok).
Defined.


Lemma other_entries_untouched_witness :
  let k := toString (Uri_file (backupPath untitled1)) in
  (forall loc, getBackupResource (self restartedState) fileA = Some loc ->
               k <> toString loc)
  /\ cache (model (self (snd (backupResource fileA "changed" (Some 2%Z)
                                restartedState)))) !! k
     = cache (model (self restartedState)) !! k.
Proof.
  cbv zeta.
  assert (Hother : forall loc,
             getBackupResource (self restartedState) fileA = Some loc ->
             toString (Uri_file (backupPath untitled1)) <> toString loc).
  { intros loc Hloc. vm_compute in Hloc. injection Hloc as <-.
    vm_compute. discriminate. }
  split; [exact Hother|].
  exact (proj1 (@other_entries_untouched uriApi nodeApi MemDisk memFileSystem
                  restartedState fileA "changed" (Some 2%Z) _ Hother)).
Defined.

Lemma discardResourceBackup_success_witness :
  getBackupResource (self backedUpState) fileA = Some backupOfA
  /\ discardResourceBackup fileA backedUpState = (Ok tt, discardedState)
  /\ Model.has (model (self discardedState)) backupOfA None = false
  /\ loadBackupResource fileA discardedState = (Ok None, discardedState).
Proof.
  assert (Hloc : getBackupResource (self backedUpState) fileA = Some backupOfA)
    by (vm_compute; reflexivity).
  assert (Hok : discardResourceBackup fileA backedUpState = (Ok tt, discardedState))
    by (vm_compute; reflexivity).
  do 2 (split; [assumption|]).
  pose proof (@discardResourceBackup_success uriApi nodeApi MemDisk memFileSystem
                _ _ _ _ Hloc Hok) as (_ & Hgone & Hload & _).
  now split.
Defined.

Lemma discardResourceBackup_failure_witness :
  let st' := snd (discardResourceBackup fileA readOnlyState) in
  getBackupResource (self readOnlyState) fileA = Some backupOfA
  /\ fs_del (fsPath backupOfA) (disk (world readOnlyState))
     = (Err (IOError "EROFS"), disk (world readOnlyState))
  /\ fst (discardResourceBackup fileA readOnlyState) = Err (IOError "EROFS")
  /\ self st' = self readOnlyState.
Proof.
  cbv zeta.
  assert (Hloc : getBackupResource (self readOnlyState) fileA = Some backupOfA)
    by (vm_compute; reflexivity).
  assert (Hdel : fs_del (fsPath backupOfA) (disk (world readOnlyState))
                 = (Err (IOError "EROFS"), disk (world readOnlyState)))
    by (vm_compute; reflexivity).
  do 2 (split; [assumption|]).
  pose proof (@discardResourceBackup_failure uriApi nodeApi MemDisk memFileSystem
                readOnlyState fileA _ _ _ Hloc Hdel) as (Herr & Hself & _).
  now split.
Defined.

Lemma backup_then_discard_witness :
  isShuttingDown (self freshState) = false
  /\ getBackupResource (self freshState) fileA = Some backupOfA
  /\ Model.has (model (self freshState)) backupOfA None = false
  /\ backupResource fileA "hello" (Some 1%Z) freshState = (Ok tt, backedUpState)
  /\ discardResourceBackup fileA backedUpState = (Ok tt, discardedState)
  /\ self discardedState = self freshState.
Proof.
  assert (Hflag : isShuttingDown (self freshState) = false)
    by (vm_compute; reflexivity).
  assert (Hloc : getBackupResource (self freshState) fileA = Some backupOfA)
    by (vm_compute; reflexivity).
  assert (Hnew : Model.has (model (self freshState)) backupOfA None = false)
    by (vm_compute; reflexivity).
  assert (Hok : backupResource fileA "hello" (Some 1%Z) freshState
                = (Ok tt, backedUpState)) by (vm_compute; reflexivity).
  assert (Hdel : discardResourceBackup fileA backedUpState = (Ok tt, discardedState))
    by (vm_compute; reflexivity).
  do 5 (split; [assumption|]).
  exact (proj1 (@backup_then_discard uriApi nodeApi MemDisk memFileSystem
                  _ _ _ _ _ _ _ Hflag Hloc Hnew Hok Hdel)).
Defined.

Lemma discardAllWorkspaceBackups_success_witness :
  let st' := snd (discardAllWorkspaceBackups restartedState) in
  backupEnabled (self restartedState) = true
  /\ discardAllWorkspaceBackups restartedState = (Ok tt, st')
  /\ cache (model (self st')) = ∅
  /\ hasBackups st' = (Ok false, st').
Proof.
  cbv zeta.
  assert (Hen : backupEnabled (self restartedState) = true)
    by (vm_compute; reflexivity).
  assert (Hok : discardAllWorkspaceBackups restartedState
                = (Ok tt, snd (discardAllWorkspaceBackups restartedState)))
    by (vm_compute; reflexivity).
  do 2 (split; [assumption|]).
  pose proof (@discardAllWorkspaceBackups_success uriApi nodeApi MemDisk
                memFileSystem _ _ Hen Hok) as (Hempty & Hnone & _).
  now split.
Defined.

Lemma discardAllWorkspaceBackups_failure_witness :
  let st' := snd (discardAllWorkspaceBackups readOnlyState) in
  backupEnabled (self readOnlyState) = true
  /\ fs_del (backupWorkspacePath (self readOnlyState)) (disk (world readOnlyState))
     = (Err (IOError "EROFS"), disk (world readOnlyState))
  /\ fst (discardAllWorkspaceBackups readOnlyState) = Err (IOError "EROFS")
  /\ model (self st') = model (self readOnlyState)
  /\ isShuttingDown (self st') = true.
Proof.
  cbv zeta.
  assert (Hen : backupEnabled (self readOnlyState) = true)
    by (vm_compute; reflexivity).
  assert (Hdel : fs_del (backupWorkspacePath (self readOnlyState))
                   (disk (world readOnlyState))
                 = (Err (IOError "EROFS"), disk (world readOnlyState)))
    by (vm_compute; reflexivity).
  do 2 (split; [assumption|]).
  pose proof (@discardAllWorkspaceBackups_failure uriApi nodeApi MemDisk
                memFileSystem readOnlyState _ _ Hen Hdel)
    as (Herr & Hmodel & Hflag & _).
  now repeat split.
Defined.

Lemma disabled_service_is_inert_witness :
  backupEnabled (self disabledState) = false
  /\ backupResource fileA "hello" (Some 1%Z) disabledState = (Ok tt, disabledState)
  /\ loadBackupResource fileA disabledState = (Ok None, disabledState).
Proof.
  assert (Hoff : backupEnabled (self disabledState) = false)
    by (vm_compute; reflexivity).
  split; [exact Hoff|].
  pose proof (@disabled_service_is_inert uriApi nodeApi MemDisk memFileSystem
                disabledState fileA "hello" (Some 1%Z) Hoff)
    as (_ & Hbackup & _ & Hload & _).
  now split.
Defined.

Lemma getWorkspaceFileBackups_all_read_witness :
  (forall fileBackup, In fileBackup (Model.get (model (self backedUpState))) ->
                      isOk (readOrigin (disk (world backedUpState)) fileBackup) = true)
  /\ exists origins : list Uri,
       getWorkspaceFileBackups backedUpState
         = (Ok origins,
            logCalls (map readCall (Model.get (model (self backedUpState))))
              backedUpState)
       /\ map Ok origins
          = map (readOrigin (disk (world backedUpState)))
              (Model.get (model (self backedUpState)))
       /\ length origins = Model.count (model (self backedUpState)).
Proof.
  assert (Hall : forall fileBackup,
             In fileBackup (Model.get (model (self backedUpState))) ->
             isOk (readOrigin (disk (world backedUpState)) fileBackup) = true).
  { assert (Hget : Model.get (model (self backedUpState)) = [backupOfA])
      by (vm_compute; reflexivity).
    rewrite Hget. intros fileBackup [<-|[]]. vm_compute. reflexivity. }
  split; [exact Hall|].
  exact (@getWorkspaceFileBackups_all_read uriApi MemDisk memFileSystem
           backedUpState Hall).
Defined.

Lemma backup_after_scan_witness :
  let st1 := snd (resolve "/bk" startingState) in
  isShuttingDown (self startingState) = false
  /\ getBackupResource (self startingState) fileA = Some backupOfA
  /\ fs_readDirsInDir "/bk" (disk (world startingState)) = Ok ["file"; "untitled"]
  /\ In (toString backupOfA)
        (map toString (found "/bk" (disk (world startingState)) ["file"; "untitled"]))
  /\ backupResource fileA "hello" (Some 0%Z) st1 = (Ok tt, st1).
Proof.
  cbv zeta.
  assert (Hflag : isShuttingDown (self startingState) = false)
    by (vm_compute; reflexivity).
  assert (Hloc : getBackupResource (self startingState) fileA = Some backupOfA)
    by (vm_compute; reflexivity).
  assert (Hroot : fs_readDirsInDir "/bk" (disk (world startingState))
                  = Ok ["file"; "untitled"]) by (vm_compute; reflexivity).
  assert (Hfound : In (toString backupOfA)
                     (map toString
                        (found "/bk" (disk (world startingState))
                           ["file"; "untitled"])))
    by (vm_compute; auto).
  do 4 (split; [assumption|]).
  exact (proj1 (@backup_after_scan uriApi nodeApi MemDisk memFileSystem
                  startingState fileA "hello" _ "/bk" _ Hflag Hloc Hroot Hfound)).
Defined.
End MoreExamples.
